(** * Regenerative rocket engine notebook: thermodynamic pipeline

    A shallow embedding of the code cells of
    [RegenerativeRocketEngineDesign-ThermodynamicsProject.ipynb] and the
    properties of its state back-computation, pump work and thrust model.

    Modelling conventions.
    - Python floats are read as real numbers: every arithmetic operation is
      the exact one, so rounding, overflow and NaN are outside the model.
      What Python does differently from real arithmetic is kept: [a / b]
      raises [ZeroDivisionError] when [b] is zero, and [x ** 0.5] of a
      negative float is a complex number.
    - [PropsSI] belongs to CoolProp, not to the notebook: it is a variable of
      the development, a partial function from queries to reals. A query it
      cannot resolve raises [ValueError]. Every call is logged, so that the
      order of lookups and errors can be stated.
    - The notebook has no inputs: its literals for the two mass flow rates,
      the feed and tank pressures and the heat fraction are gathered in
      [ScenarioParameters], [notebook_parameters] being the values written in
      the cells. All other literals stay where the cells have them.
    - [Binary64] replays the arithmetic of the cells on those literals in
      IEEE 754 binary64, the floats Python computes with, to compare what the
      statements over the reals say with what the notebook prints. *)

From Stdlib Require Import Reals Lra String List.
From Stdlib Require Floats.
Import ListNotations.

Local Open Scope string_scope.
Local Open Scope list_scope.
Local Open Scope R_scope.

(** ** Values and effects *)

(** A Python number as the notebook produces them: a float, or the complex
    result of a fractional power of a negative float. *)
Inductive pynum : Type :=
| PyFloat (x : R)
| PyComplex (re im : R).

(** One call [PropsSI(output, name1, prop1, name2, prop2, fluid)]. *)
Record query : Type := Query {
  q_output : string;
  q_name1 : string;
  q_prop1 : R;
  q_name2 : string;
  q_prop2 : R;
  q_fluid : string
}.

(** The exceptions the cells can raise. *)
Inductive exn : Type :=
| ZeroDivisionError
| ValueError (q : query).

(** A computation reads the log of the lookups made so far, and returns an
    exception or a value together with the extended log. *)
Definition Exec (A : Type) : Type := list query -> (exn + A) * list query.

Definition ret {A : Type} (a : A) : Exec A := fun tr => (inr a, tr).

Definition raise {A : Type} (e : exn) : Exec A := fun tr => (inl e, tr).

Definition bind {A B : Type} (c : Exec A) (k : A -> Exec B) : Exec B :=
  fun tr =>
    match c tr with
    | (inl e, tr') => (inl e, tr')
    | (inr a, tr') => k a tr'
    end.

Notation "x <- c ;; k" := (bind c (fun x => k))
  (at level 61, c at next level, right associativity).
Notation "c ;;; k" := (bind c (fun _ => k))
  (at level 61, right associativity).

(** Python's [a / b] on floats. *)
Definition div (a b : R) : Exec R :=
  if Req_dec_T b 0 then raise ZeroDivisionError else ret (a / b).

(** Python's [x ** 0.5] on a float: the square root, and for a negative base
    the principal complex root, whose real part is zero. *)
Definition pow_half (x : R) : pynum :=
  if Rlt_dec x 0 then PyComplex 0 (sqrt (- x)) else PyFloat (sqrt x).

(** [v / b] for a float or complex [v] and a float [b]. *)
Definition pynum_div (v : pynum) (b : R) : Exec pynum :=
  if Req_dec_T b 0 then raise ZeroDivisionError
  else match v with
       | PyFloat x => ret (PyFloat (x / b))
       | PyComplex re im => ret (PyComplex (re / b) (im / b))
       end.

(** [a * v] for a float [a] and a float or complex [v]; the float is promoted
    to [a + 0j] before a complex product. *)
Definition pynum_mul (a : R) (v : pynum) : pynum :=
  match v with
  | PyFloat x => PyFloat (a * x)
  | PyComplex re im => PyComplex (a * re - 0 * im) (a * im + 0 * re)
  end.

(** ** The notebook's variables *)

Record ScenarioParameters : Type := {
  mass_flow_fuel : R;   (* mDot_E = 0.125 *)
  mass_flow_ox : R;     (* mDot_O2 = 0.125 *)
  feed_pressure : R;    (* p3_Pa = 1200000 *)
  tank_pressure : R;    (* p1_Pa = 300000 *)
  wall_fraction : R     (* Q_inWall = Q_out*0.05 *)
}.

Definition notebook_parameters : ScenarioParameters :=
  {| mass_flow_fuel := 0.125;
     mass_flow_ox := 0.125;
     feed_pressure := 1200000;
     tank_pressure := 300000;
     wall_fraction := 0.05 |}.

(** The fraction of the improved design's cell, [Q_inWall = Q_out*0.5]. *)
Definition improved_fraction : R := 0.5.

(** The global names bound once the cells up to the pump work have run. *)
Record Namespace : Type := {
  mDot_E : R;
  mDot_O2 : R;
  mDot_Tot : R;
  mm_E : R;
  mm_O2 : R;
  Q_combustion : R;
  Q_out : R;
  Q_inWall : R;
  Q_inWall_J : R;
  p3_Pa : R;
  x3 : R;
  fluid : string;
  oxidizer : string;
  h3_JperKg : R;
  t3_K : R;
  h2_JperKg : R;
  s2_JperKgK : R;
  t2_K : R;
  p1_Pa : R;
  t1_K : R;
  h1_JperKg : R;
  work_EPump : R;
  h2_O2_JperKg : R;
  s2_O2_JperKgK : R;
  h1_O2_JperKg : R;
  T1_O2_K : R;
  work_OPump : R
}.

(** The names bound by the thrust cell. *)
Record ThrustVars : Type := {
  h1_gas : R;
  h2_gas : R;
  h3_gas : R;
  V : pynum;
  M : pynum;
  Thrust_N : pynum
}.

(** [returns c tr0 P]: started on the log [tr0], [c] raises nothing and its
    value and final log satisfy [P]. *)
Definition returns {A : Type} (c : Exec A) (tr0 : list query)
    (P : A -> list query -> Prop) : Prop :=
  exists a tr, c tr0 = (inr a, tr) /\ P a tr.

(** The query of the thrust cell. *)
Definition exhaust_query : query :=
  Query "T" "P" 101325 "T" (973 * 0.8) "CO2".

(** ** The cells *)

Section Notebook.

(** CoolProp's answer to a query, [None] when it cannot resolve the state. *)
Variable CoolProp : query -> option R.

Definition PropsSI (output name1 : string) (prop1 : R) (name2 : string)
    (prop2 : R) (fluid : string) : Exec R :=
  fun tr =>
    let q := Query output name1 prop1 name2 prop2 fluid in
    match CoolProp q with
    | Some v => (inr v, tr ++ [q])
    | None => (inl (ValueError q), tr ++ [q])
    end.

(** Cells [4] to [8]: flow rates, combustion heat, injector state, state
    before the heat exchanger, tank state and pump work. *)
Definition baseline (p : ScenarioParameters) : Exec Namespace :=
  (* In [4] *)
  let mDot_E := mass_flow_fuel p in
  let mDot_O2 := mass_flow_ox p in
  let mDot_Tot := mDot_E + mDot_O2 in
  let mm_E := 0.046068 in
  let mm_O2 := 0.032 in
  (* In [5] *)
  let Q_combustion := 1350 in
  nDot_O2 <- div mDot_O2 mm_O2 ;;
  nDot_rxn <- div nDot_O2 3 ;;
  let Q_out := nDot_rxn * Q_combustion in
  let Q_inWall := Q_out * wall_fraction p in
  let Q_inWall_J := Q_inWall * 1000 in
  (* In [6]: the two lookups are printed, not bound *)
  let p3_Pa := feed_pressure p in
  let x3 := 0 in
  let fluid := "ethanol" in
  let oxidizer := "oxygen" in
  PropsSI "H" "P" p3_Pa "Q" x3 fluid ;;;
  PropsSI "T" "P" 300000 "H" 0 "ethanol" ;;;
  (* In [7] *)
  h3_JperKg <- PropsSI "Hmass" "P" p3_Pa "Q" x3 fluid ;;
  t3_K <- PropsSI "T" "P" p3_Pa "Q" x3 fluid ;;
  dh <- div Q_inWall_J mDot_E ;;
  let h2_JperKg := h3_JperKg - dh in
  s2_JperKgK <- PropsSI "S" "P" p3_Pa "Hmass" h2_JperKg fluid ;;
  t2_K <- PropsSI "T" "P" p3_Pa "H" h2_JperKg fluid ;;
  (* In [8] *)
  let p1_Pa := tank_pressure p in
  t1_K <- PropsSI "T" "P" p1_Pa "S" s2_JperKgK fluid ;;
  h1_JperKg <- PropsSI "H" "P" p1_Pa "S" s2_JperKgK fluid ;;
  inv_E <- div 1 mDot_E ;;
  let work_EPump := inv_E * (h2_JperKg - h1_JperKg) in
  h2_O2_JperKg <- PropsSI "H" "P" p3_Pa "Q" 0 oxidizer ;;
  s2_O2_JperKgK <- PropsSI "S" "P" p3_Pa "Q" 0 oxidizer ;;
  h1_O2_JperKg <- PropsSI "H" "P" p1_Pa "S" s2_O2_JperKgK oxidizer ;;
  T1_O2_K <- PropsSI "T" "P" p1_Pa "S" s2_O2_JperKgK oxidizer ;;
  inv_O2 <- div 1 mDot_O2 ;;
  let work_OPump := inv_O2 * (h2_O2_JperKg - h1_O2_JperKg) in
  ret {| mDot_E := mDot_E; mDot_O2 := mDot_O2; mDot_Tot := mDot_Tot;
         mm_E := mm_E; mm_O2 := mm_O2;
         Q_combustion := Q_combustion; Q_out := Q_out;
         Q_inWall := Q_inWall; Q_inWall_J := Q_inWall_J;
         p3_Pa := p3_Pa; x3 := x3; fluid := fluid; oxidizer := oxidizer;
         h3_JperKg := h3_JperKg; t3_K := t3_K;
         h2_JperKg := h2_JperKg; s2_JperKgK := s2_JperKgK; t2_K := t2_K;
         p1_Pa := p1_Pa; t1_K := t1_K; h1_JperKg := h1_JperKg;
         work_EPump := work_EPump;
         h2_O2_JperKg := h2_O2_JperKg; s2_O2_JperKgK := s2_O2_JperKgK;
         h1_O2_JperKg := h1_O2_JperKg; T1_O2_K := T1_O2_K;
         work_OPump := work_OPump |}.

(** Cell [9], the improved design: it rebinds [Q_inWall], [Q_inWall_J] and
    the fuel states and pump work, and leaves every other name as it was. *)
Definition improved (frac : R) (ns : Namespace) : Exec Namespace :=
  let Q_inWall' := Q_out ns * frac in
  let Q_inWall_J' := Q_inWall' * 1000 in
  dh <- div (Q_inWall_J' * 0.05) (mDot_E ns) ;;
  let h2_JperKg' := h3_JperKg ns - dh in
  s2_JperKgK' <- PropsSI "S" "P" (p3_Pa ns) "Hmass" h2_JperKg' (fluid ns) ;;
  t2_K' <- PropsSI "T" "P" (p3_Pa ns) "H" h2_JperKg' (fluid ns) ;;
  t1_K' <- PropsSI "T" "P" (p1_Pa ns) "S" s2_JperKgK' (fluid ns) ;;
  h1_JperKg' <- PropsSI "H" "P" (p1_Pa ns) "S" s2_JperKgK' (fluid ns) ;;
  inv_E <- div 1 (mDot_E ns) ;;
  let work_EPump' := inv_E * (h2_JperKg' - h1_JperKg') in
  ret {| mDot_E := mDot_E ns; mDot_O2 := mDot_O2 ns; mDot_Tot := mDot_Tot ns;
         mm_E := mm_E ns; mm_O2 := mm_O2 ns;
         Q_combustion := Q_combustion ns; Q_out := Q_out ns;
         Q_inWall := Q_inWall'; Q_inWall_J := Q_inWall_J';
         p3_Pa := p3_Pa ns; x3 := x3 ns;
         fluid := fluid ns; oxidizer := oxidizer ns;
         h3_JperKg := h3_JperKg ns; t3_K := t3_K ns;
         h2_JperKg := h2_JperKg'; s2_JperKgK := s2_JperKgK'; t2_K := t2_K';
         p1_Pa := p1_Pa ns; t1_K := t1_K'; h1_JperKg := h1_JperKg';
         work_EPump := work_EPump';
         h2_O2_JperKg := h2_O2_JperKg ns; s2_O2_JperKgK := s2_O2_JperKgK ns;
         h1_O2_JperKg := h1_O2_JperKg ns; T1_O2_K := T1_O2_K ns;
         work_OPump := work_OPump ns |}.

(** Cell [16], the thrust. *)
Definition thrust (ns : Namespace) : Exec ThrustVars :=
  h1_gas <- div (h3_JperKg ns * mDot_E ns + h2_O2_JperKg ns * mDot_O2 ns)
                (mDot_Tot ns) ;;
  dq <- div (Q_out ns * 1000 * 0.95) (mDot_Tot ns) ;;
  let h2_gas := h1_gas + dq in
  h3_gas <- PropsSI "T" "P" 101325 "T" (973 * 0.8) "CO2" ;;
  let V := pow_half (2 * (h2_gas - h3_gas)) in
  M <- pynum_div V 343 ;;
  let Thrust_N := pynum_mul (mDot_Tot ns) V in
  ret {| h1_gas := h1_gas; h2_gas := h2_gas; h3_gas := h3_gas;
         V := V; M := M; Thrust_N := Thrust_N |}.

(** The notebook run in the order of its execution counts, the thrust cell
    after the baseline cells only, or after the improved cell as well. *)
Definition run_baseline (p : ScenarioParameters) : Exec (Namespace * ThrustVars) :=
  ns <- baseline p ;;
  t <- thrust ns ;;
  ret (ns, t).

Definition run_improved (p : ScenarioParameters) (frac : R)
    : Exec (Namespace * ThrustVars) :=
  ns <- baseline p ;;
  ns' <- improved frac ns ;;
  t <- thrust ns' ;;
  ret (ns', t).

(** ** What a completed run has bound *)

(** What a completed run of cells [4] to [8] has bound, and the lookups it
    has added to the log. *)
Record baseline_post (p : ScenarioParameters) (tr0 : list query)
    (ns : Namespace) (tr : list query) : Prop := {
  bp_mDot_E : mDot_E ns = mass_flow_fuel p;
  bp_mDot_O2 : mDot_O2 ns = mass_flow_ox p;
  bp_mDot_Tot : mDot_Tot ns = mDot_E ns + mDot_O2 ns;
  bp_mDot_E_nonzero : mDot_E ns <> 0;
  bp_mDot_O2_nonzero : mDot_O2 ns <> 0;
  bp_mm_O2 : mm_O2 ns = 0.032;
  bp_Q_combustion : Q_combustion ns = 1350;
  bp_Q_out : Q_out ns = ((mDot_O2 ns / mm_O2 ns) / 3) * Q_combustion ns;
  bp_Q_inWall : Q_inWall ns = Q_out ns * wall_fraction p;
  bp_Q_inWall_J : Q_inWall_J ns = Q_inWall ns * 1000;
  bp_p3_Pa : p3_Pa ns = feed_pressure p;
  bp_x3 : x3 ns = 0;
  bp_fluid : fluid ns = "ethanol";
  bp_oxidizer : oxidizer ns = "oxygen";
  bp_h3 : CoolProp (Query "Hmass" "P" (p3_Pa ns) "Q" (x3 ns) (fluid ns))
          = Some (h3_JperKg ns);
  bp_t3 : CoolProp (Query "T" "P" (p3_Pa ns) "Q" (x3 ns) (fluid ns))
          = Some (t3_K ns);
  bp_h2 : h2_JperKg ns = h3_JperKg ns - Q_inWall_J ns / mDot_E ns;
  bp_s2 : CoolProp (Query "S" "P" (p3_Pa ns) "Hmass" (h2_JperKg ns) (fluid ns))
          = Some (s2_JperKgK ns);
  bp_t2 : CoolProp (Query "T" "P" (p3_Pa ns) "H" (h2_JperKg ns) (fluid ns))
          = Some (t2_K ns);
  bp_p1_Pa : p1_Pa ns = tank_pressure p;
  bp_t1 : CoolProp (Query "T" "P" (p1_Pa ns) "S" (s2_JperKgK ns) (fluid ns))
          = Some (t1_K ns);
  bp_h1 : CoolProp (Query "H" "P" (p1_Pa ns) "S" (s2_JperKgK ns) (fluid ns))
          = Some (h1_JperKg ns);
  bp_work_EPump :
    work_EPump ns = (1 / mDot_E ns) * (h2_JperKg ns - h1_JperKg ns);
  bp_h2_O2 : CoolProp (Query "H" "P" (p3_Pa ns) "Q" 0 (oxidizer ns))
             = Some (h2_O2_JperKg ns);
  bp_s2_O2 : CoolProp (Query "S" "P" (p3_Pa ns) "Q" 0 (oxidizer ns))
             = Some (s2_O2_JperKgK ns);
  bp_h1_O2 :
    CoolProp (Query "H" "P" (p1_Pa ns) "S" (s2_O2_JperKgK ns) (oxidizer ns))
    = Some (h1_O2_JperKg ns);
  bp_T1_O2 :
    CoolProp (Query "T" "P" (p1_Pa ns) "S" (s2_O2_JperKgK ns) (oxidizer ns))
    = Some (T1_O2_K ns);
  bp_work_OPump :
    work_OPump ns = (1 / mDot_O2 ns) * (h2_O2_JperKg ns - h1_O2_JperKg ns);
  bp_log :
    tr = tr0 ++
      [ Query "H" "P" (p3_Pa ns) "Q" (x3 ns) (fluid ns);
        Query "T" "P" 300000 "H" 0 "ethanol";
        Query "Hmass" "P" (p3_Pa ns) "Q" (x3 ns) (fluid ns);
        Query "T" "P" (p3_Pa ns) "Q" (x3 ns) (fluid ns);
        Query "S" "P" (p3_Pa ns) "Hmass" (h2_JperKg ns) (fluid ns);
        Query "T" "P" (p3_Pa ns) "H" (h2_JperKg ns) (fluid ns);
        Query "T" "P" (p1_Pa ns) "S" (s2_JperKgK ns) (fluid ns);
        Query "H" "P" (p1_Pa ns) "S" (s2_JperKgK ns) (fluid ns);
        Query "H" "P" (p3_Pa ns) "Q" 0 (oxidizer ns);
        Query "S" "P" (p3_Pa ns) "Q" 0 (oxidizer ns);
        Query "H" "P" (p1_Pa ns) "S" (s2_O2_JperKgK ns) (oxidizer ns);
        Query "T" "P" (p1_Pa ns) "S" (s2_O2_JperKgK ns) (oxidizer ns) ]
}.

(** What a completed run of cell [9] on the namespace [ns] has rebound, what
    it has left alone, and the lookups it has added. *)
Record improved_post (frac : R) (ns : Namespace) (tr0 : list query)
    (ns' : Namespace) (tr : list query) : Prop := {
  ip_mDot_E : mDot_E ns' = mDot_E ns;
  ip_mDot_O2 : mDot_O2 ns' = mDot_O2 ns;
  ip_mDot_Tot : mDot_Tot ns' = mDot_Tot ns;
  ip_mm_E : mm_E ns' = mm_E ns;
  ip_mm_O2 : mm_O2 ns' = mm_O2 ns;
  ip_Q_combustion : Q_combustion ns' = Q_combustion ns;
  ip_Q_out : Q_out ns' = Q_out ns;
  ip_p3_Pa : p3_Pa ns' = p3_Pa ns;
  ip_x3 : x3 ns' = x3 ns;
  ip_fluid : fluid ns' = fluid ns;
  ip_oxidizer : oxidizer ns' = oxidizer ns;
  ip_h3 : h3_JperKg ns' = h3_JperKg ns;
  ip_t3 : t3_K ns' = t3_K ns;
  ip_p1_Pa : p1_Pa ns' = p1_Pa ns;
  ip_h2_O2 : h2_O2_JperKg ns' = h2_O2_JperKg ns;
  ip_s2_O2 : s2_O2_JperKgK ns' = s2_O2_JperKgK ns;
  ip_h1_O2 : h1_O2_JperKg ns' = h1_O2_JperKg ns;
  ip_T1_O2 : T1_O2_K ns' = T1_O2_K ns;
  ip_work_OPump : work_OPump ns' = work_OPump ns;
  ip_mDot_E_nonzero : mDot_E ns <> 0;
  ip_Q_inWall : Q_inWall ns' = Q_out ns * frac;
  ip_Q_inWall_J : Q_inWall_J ns' = Q_inWall ns' * 1000;
  ip_h2 : h2_JperKg ns' = h3_JperKg ns - (Q_inWall_J ns' * 0.05) / mDot_E ns;
  ip_s2 : CoolProp (Query "S" "P" (p3_Pa ns) "Hmass" (h2_JperKg ns') (fluid ns))
          = Some (s2_JperKgK ns');
  ip_t2 : CoolProp (Query "T" "P" (p3_Pa ns) "H" (h2_JperKg ns') (fluid ns))
          = Some (t2_K ns');
  ip_t1 : CoolProp (Query "T" "P" (p1_Pa ns) "S" (s2_JperKgK ns') (fluid ns))
          = Some (t1_K ns');
  ip_h1 : CoolProp (Query "H" "P" (p1_Pa ns) "S" (s2_JperKgK ns') (fluid ns))
          = Some (h1_JperKg ns');
  ip_work_EPump :
    work_EPump ns' = (1 / mDot_E ns) * (h2_JperKg ns' - h1_JperKg ns');
  ip_log :
    tr = tr0 ++
      [ Query "S" "P" (p3_Pa ns) "Hmass" (h2_JperKg ns') (fluid ns);
        Query "T" "P" (p3_Pa ns) "H" (h2_JperKg ns') (fluid ns);
        Query "T" "P" (p1_Pa ns) "S" (s2_JperKgK ns') (fluid ns);
        Query "H" "P" (p1_Pa ns) "S" (s2_JperKgK ns') (fluid ns) ]
}.

(** What a completed run of cell [16] on the namespace [ns] has bound. *)
Record thrust_post (ns : Namespace) (tr0 : list query)
    (t : ThrustVars) (tr : list query) : Prop := {
  tp_mDot_Tot_nonzero : mDot_Tot ns <> 0;
  tp_h1_gas :
    h1_gas t =
    (h3_JperKg ns * mDot_E ns + h2_O2_JperKg ns * mDot_O2 ns) / mDot_Tot ns;
  tp_h2_gas : h2_gas t = h1_gas t + (Q_out ns * 1000 * 0.95) / mDot_Tot ns;
  tp_h3_gas : CoolProp exhaust_query = Some (h3_gas t);
  tp_V : V t = pow_half (2 * (h2_gas t - h3_gas t));
  tp_M :
    M t = match V t with
          | PyFloat x => PyFloat (x / 343)
          | PyComplex re im => PyComplex (re / 343) (im / 343)
          end;
  tp_Thrust_N : Thrust_N t = pynum_mul (mDot_Tot ns) (V t);
  tp_log : tr = tr0 ++ [exhaust_query]
}.

(** ** Statements about CoolProp *)

(** The state of [fl] with temperature [T] and enthalpy [H] is the one
    CoolProp gives at pressure [P] and entropy [S]. *)
Definition state_at_entropy (P S : R) (fl : string) (T H : R) : Prop :=
  CoolProp (Query "T" "P" P "S" S fl) = Some T /\
  CoolProp (Query "H" "P" P "S" S fl) = Some H.

(** The tank states of a namespace are the states at the tank pressure and at
    the entropies [s2_JperKgK] and [s2_O2_JperKgK], which are the entropy
    before the heat exchanger of the fuel (looked up at the feed pressure and
    [h2_JperKg]) and of the oxidizer (saturated liquid at the feed
    pressure). *)
Definition isentropic_pumps (ns : Namespace) : Prop :=
  CoolProp (Query "S" "P" (p3_Pa ns) "Hmass" (h2_JperKg ns) (fluid ns))
    = Some (s2_JperKgK ns) /\
  state_at_entropy (p1_Pa ns) (s2_JperKgK ns) (fluid ns)
    (t1_K ns) (h1_JperKg ns) /\
  CoolProp (Query "S" "P" (p3_Pa ns) "Q" 0 (oxidizer ns))
    = Some (s2_O2_JperKgK ns) /\
  state_at_entropy (p1_Pa ns) (s2_O2_JperKgK ns) (oxidizer ns)
    (T1_O2_K ns) (h1_O2_JperKg ns).

(** The lookups of the tank states: all four give the tank pressure and an
    entropy, that of the state before the heat exchanger. *)
Definition tank_lookups (ns : Namespace) : list query :=
  [ Query "T" "P" (p1_Pa ns) "S" (s2_JperKgK ns) (fluid ns);
    Query "H" "P" (p1_Pa ns) "S" (s2_JperKgK ns) (fluid ns);
    Query "H" "P" (p1_Pa ns) "S" (s2_O2_JperKgK ns) (oxidizer ns);
    Query "T" "P" (p1_Pa ns) "S" (s2_O2_JperKgK ns) (oxidizer ns) ].

(** The state of [fl] with entropy [S] and temperature [T] is the one
    CoolProp gives at pressure [P] and enthalpy [h], as cells [7] and [9] look
    the state before the heat exchanger up. *)
Definition state_at_enthalpy (P h : R) (fl : string) (S T : R) : Prop :=
  CoolProp (Query "S" "P" P "Hmass" h fl) = Some S /\
  CoolProp (Query "T" "P" P "H" h fl) = Some T.

(** CoolProp asked for a property that is its second input gives that input
    back. *)
Definition returns_requested_input : Prop :=
  forall q, q_output q = q_name2 q -> CoolProp q = Some (q_prop2 q).

(** ** Cells run again, and what a run may raise *)

(** Cell [7] run on a namespace in which every name is already bound, as when
    the cell is executed again: it reads [p3_Pa], [x3], [fluid], [Q_inWall_J]
    and [mDot_E], and rebinds the injector state and the state before the
    heat exchanger. *)
Definition cell7 (ns : Namespace) : Exec Namespace :=
  h3_JperKg' <- PropsSI "Hmass" "P" (p3_Pa ns) "Q" (x3 ns) (fluid ns) ;;
  t3_K' <- PropsSI "T" "P" (p3_Pa ns) "Q" (x3 ns) (fluid ns) ;;
  dh <- div (Q_inWall_J ns) (mDot_E ns) ;;
  let h2_JperKg' := h3_JperKg' - dh in
  s2_JperKgK' <- PropsSI "S" "P" (p3_Pa ns) "Hmass" h2_JperKg' (fluid ns) ;;
  t2_K' <- PropsSI "T" "P" (p3_Pa ns) "H" h2_JperKg' (fluid ns) ;;
  ret {| mDot_E := mDot_E ns; mDot_O2 := mDot_O2 ns; mDot_Tot := mDot_Tot ns;
         mm_E := mm_E ns; mm_O2 := mm_O2 ns;
         Q_combustion := Q_combustion ns; Q_out := Q_out ns;
         Q_inWall := Q_inWall ns; Q_inWall_J := Q_inWall_J ns;
         p3_Pa := p3_Pa ns; x3 := x3 ns;
         fluid := fluid ns; oxidizer := oxidizer ns;
         h3_JperKg := h3_JperKg'; t3_K := t3_K';
         h2_JperKg := h2_JperKg'; s2_JperKgK := s2_JperKgK'; t2_K := t2_K';
         p1_Pa := p1_Pa ns; t1_K := t1_K ns; h1_JperKg := h1_JperKg ns;
         work_EPump := work_EPump ns;
         h2_O2_JperKg := h2_O2_JperKg ns; s2_O2_JperKgK := s2_O2_JperKgK ns;
         h1_O2_JperKg := h1_O2_JperKg ns; T1_O2_K := T1_O2_K ns;
         work_OPump := work_OPump ns |}.

(** CoolProp answers the query. *)
Definition answered (q : query) : Prop := CoolProp q <> None.

(** What a computation may do to the log and what it may raise: it only
    appends to the log; the queries it appends are answered, except the last
    one when it raises [ValueError], which is the query the error carries;
    and it raises [ZeroDivisionError] only when [Z] holds. *)
Definition raises_only (Z : Prop) {A : Type} (c : Exec A) : Prop :=
  forall tr0 r tr, c tr0 = (r, tr) ->
    exists l, tr = tr0 ++ l /\
      match r with
      | inr _ => Forall answered l
      | inl ZeroDivisionError => Z /\ Forall answered l
      | inl (ValueError q) =>
          CoolProp q = None /\ exists l', l = l' ++ [q] /\ Forall answered l'
      end.

End Notebook.

(** ** A table standing for CoolProp

    Used where a statement is evaluated on a concrete run of the baseline
    cells. The table looks at the names of a query and at the fluid, not at
    the values given. The injector enthalpy of ethanol and the temperatures
    are the values the notebook printed for its baseline; the tank enthalpies
    follow from the printed pump works and the oxygen injector enthalpy from
    the printed velocity; the entropies are placeholders. A query whose output
    is one of its own inputs is answered with that input. *)
Definition table_CoolProp (q : query) : option R :=
  let ethanol := String.eqb (q_fluid q) "ethanol" in
  let given := q_name2 q in
  Some
    (if String.eqb (q_output q) given then q_prop2 q
     else if String.eqb (q_output q) (q_name1 q) then q_prop1 q
     else if String.eqb (q_output q) "T" then
       if String.eqb given "Q" then 431.21
       else if String.eqb given "S" then (if ethanol then 158.45 else 102.02)
       else 158.56
     else if String.eqb (q_output q) "S" then
       (if ethanol then -1900 else 3400)
     else
       if String.eqb given "Q" then (if ethanol then 272155.83 else -74396)
       else if ethanol then -431958.2925 else -78722.3525).

(** A table for saturated liquids at their reference state: with the normal
    boiling point as reference state, the enthalpy and entropy of a saturated
    liquid at atmospheric pressure are 0. Every answer that is not an input of
    the query is 0. *)
Definition reference_CoolProp (q : query) : option R :=
  Some
    (if String.eqb (q_output q) (q_name2 q) then q_prop2 q
     else if String.eqb (q_output q) (q_name1 q) then q_prop1 q
     else 0).

(** The namespace of the notebook after its cell [8], on the table: the
    values the notebook printed, and those the cells compute from them. *)
Definition notebook_namespace : Namespace :=
  {| mDot_E := 0.125; mDot_O2 := 0.125; mDot_Tot := 0.25;
     mm_E := 0.046068; mm_O2 := 0.032;
     Q_combustion := 1350; Q_out := 1757.8125;
     Q_inWall := 87.890625; Q_inWall_J := 87890.625;
     p3_Pa := 1200000; x3 := 0; fluid := "ethanol"; oxidizer := "oxygen";
     h3_JperKg := 272155.83; t3_K := 431.21;
     h2_JperKg := -430969.17; s2_JperKgK := -1900; t2_K := 158.56;
     p1_Pa := 300000; t1_K := 158.45; h1_JperKg := -431958.2925;
     work_EPump := 7912.98;
     h2_O2_JperKg := -74396; s2_O2_JperKgK := 3400;
     h1_O2_JperKg := -78722.3525; T1_O2_K := 102.02;
     work_OPump := 34610.82 |}.

(** Positive mass flow rates with very little oxidizer, so that little heat is
    released, and a feed at atmospheric pressure. *)
Definition starved_parameters : ScenarioParameters :=
  {| mass_flow_fuel := 1;
     mass_flow_ox := 0.00001;
     feed_pressure := 101325;
     tank_pressure := 50000;
     wall_fraction := 0.05 |}.

(** A negative oxidizer mass flow rate and a negative heat fraction. Their
    product is the wall heat of the notebook, so the fuel states are those of
    the notebook's baseline. *)
Definition invalid_parameters : ScenarioParameters :=
  {| mass_flow_fuel := 0.125;
     mass_flow_ox := -0.125;
     feed_pressure := 1200000;
     tank_pressure := 300000;
     wall_fraction := -0.05 |}.

(** A fuel mass flow rate of zero. *)
Definition no_fuel_parameters : ScenarioParameters :=
  {| mass_flow_fuel := 0;
     mass_flow_ox := 0.125;
     feed_pressure := 1200000;
     tank_pressure := 300000;
     wall_fraction := 0.05 |}.

(** Both mass flow rates multiplied by [k], the rest unchanged. *)
Definition scale_flows (k : R) (p : ScenarioParameters) : ScenarioParameters :=
  {| mass_flow_fuel := k * mass_flow_fuel p;
     mass_flow_ox := k * mass_flow_ox p;
     feed_pressure := feed_pressure p;
     tank_pressure := tank_pressure p;
     wall_fraction := wall_fraction p |}.

(** Mass flow rates that cancel. *)
Definition opposite_flows_parameters : ScenarioParameters :=
  {| mass_flow_fuel := 0.125;
     mass_flow_ox := -0.125;
     feed_pressure := 1200000;
     tank_pressure := 300000;
     wall_fraction := 0.05 |}.

(** The table, except that the check printed by cell [6] at 300000 Pa and
    enthalpy 0 is not answered. *)
Definition no_check_CoolProp (q : query) : option R :=
  if String.eqb (q_name2 q) "H" then None else table_CoolProp q.

(** ** The arithmetic in binary64 *)

(** The arithmetic of cells [4], [5], [7] and [9] on the notebook's literals,
    with the operations of IEEE 754 binary64. The injector enthalpy, which
    the cells look up, is an argument. *)
Module Binary64.

Import PrimFloat.
Local Open Scope float_scope.
#[local] Set Warnings "-inexact-float".

Definition mDot_E : float := 0.125.
Definition mDot_O2 : float := 0.125.
Definition mDot_Tot : float := mDot_E + mDot_O2.
Definition mm_O2 : float := 0.032.
Definition Q_combustion : float := 1350.
Definition Q_out : float := ((mDot_O2 / mm_O2) / 3) * Q_combustion.
Definition Q_inWall : float := Q_out * 0.05.
Definition Q_inWall_J : float := Q_inWall * 1000.

Definition h2_JperKg (h3_JperKg : float) : float :=
  h3_JperKg - (Q_inWall_J / mDot_E).

(** Cell [9]. *)
Definition Q_inWall_improved : float := Q_out * 0.5.
Definition Q_inWall_J_improved : float := Q_inWall_improved * 1000.

Definition h2_JperKg_improved (h3_JperKg : float) : float :=
  h3_JperKg - ((Q_inWall_J_improved * 0.05) / mDot_E).

(** The second input of the exhaust query. *)
Definition exhaust_temperature : float := 973 * 0.8.

(** The injector enthalpy of ethanol as printed. *)
Definition h3_printed : float := 272155.83.

End Binary64.

(** ** Running computations *)

Lemma bind_inr {A B : Type} (c : Exec A) (k : A -> Exec B) tr0 b tr :
  bind c k tr0 = (inr b, tr) ->
  exists a tr1, c tr0 = (inr a, tr1) /\ k a tr1 = (inr b, tr).
Proof.
  unfold bind. destruct (c tr0) as [[e | a] tr1]; intros H.
  - discriminate.
  - exists a, tr1. split; [reflexivity | exact H].
Qed.

Lemma bind_ok {A B : Type} (c : Exec A) (k : A -> Exec B) tr0 a tr1 :
  c tr0 = (inr a, tr1) -> bind c k tr0 = k a tr1.
Proof. unfold bind. intros ->. reflexivity. Qed.

Lemma bind_raise {A B : Type} (c : Exec A) (k : A -> Exec B) tr0 e tr1 :
  c tr0 = (inl e, tr1) -> bind c k tr0 = (inl e, tr1).
Proof. unfold bind. intros ->. reflexivity. Qed.

Lemma bind_assoc {A B C : Type} (c : Exec A) (k1 : A -> Exec B)
    (k2 : B -> Exec C) tr :
  bind (bind c k1) k2 tr = bind c (fun a => bind (k1 a) k2) tr.
Proof. unfold bind. destruct (c tr) as [[e | a] tr1]; reflexivity. Qed.

Lemma bind_ret {A B : Type} (a : A) (k : A -> Exec B) tr :
  bind (ret a) k tr = k a tr.
Proof. reflexivity. Qed.

Lemma ret_inr {A : Type} (a b : A) tr0 tr :
  ret a tr0 = (inr b, tr) -> b = a /\ tr = tr0.
Proof. unfold ret. intros H. inversion H. split; reflexivity. Qed.

Lemma div_ok a b tr : b <> 0 -> div a b tr = (inr (a / b), tr).
Proof.
  intros Hb. unfold div. destruct (Req_dec_T b 0) as [E | _].
  - contradiction.
  - reflexivity.
Qed.

Lemma div_zero a b tr : b = 0 -> div a b tr = (inl ZeroDivisionError, tr).
Proof.
  intros Hb. unfold div. destruct (Req_dec_T b 0) as [_ | N].
  - reflexivity.
  - contradiction.
Qed.

Lemma div_inr a b tr0 v tr :
  div a b tr0 = (inr v, tr) -> b <> 0 /\ v = a / b /\ tr = tr0.
Proof.
  unfold div. destruct (Req_dec_T b 0) as [E | N]; intros H.
  - discriminate.
  - inversion H. repeat split; assumption.
Qed.

Lemma pynum_div_ok v b tr :
  b <> 0 ->
  pynum_div v b tr =
  (inr match v with
       | PyFloat x => PyFloat (x / b)
       | PyComplex re im => PyComplex (re / b) (im / b)
       end, tr).
Proof.
  intros Hb. unfold pynum_div. destruct (Req_dec_T b 0) as [E | _].
  - contradiction.
  - destruct v; reflexivity.
Qed.

Lemma pynum_div_inr v b tr0 w tr :
  pynum_div v b tr0 = (inr w, tr) ->
  b <> 0 /\ tr = tr0 /\
  w = match v with
      | PyFloat x => PyFloat (x / b)
      | PyComplex re im => PyComplex (re / b) (im / b)
      end.
Proof.
  unfold pynum_div. destruct (Req_dec_T b 0) as [E | N]; intros H.
  - discriminate.
  - destruct v; inversion H; repeat split; assumption.
Qed.

Lemma pow_half_nonneg x : 0 <= x -> pow_half x = PyFloat (sqrt x).
Proof.
  intros Hx. unfold pow_half. destruct (Rlt_dec x 0) as [L | _].
  - lra.
  - reflexivity.
Qed.

Lemma pow_half_neg x : x < 0 -> pow_half x = PyComplex 0 (sqrt (- x)).
Proof.
  intros Hx. unfold pow_half. destruct (Rlt_dec x 0) as [_ | N].
  - reflexivity.
  - contradiction.
Qed.

Lemma PyComplex_ext re im re' im' :
  re = re' -> im = im' -> PyComplex re im = PyComplex re' im'.
Proof. intros -> ->. reflexivity. Qed.

Lemma inr_ext {A B : Type} (a b : B) : a = b -> @inr A B a = inr b.
Proof. intros ->. reflexivity. Qed.

Lemma Namespace_ext (a b : Namespace) :
  mDot_E a = mDot_E b -> mDot_O2 a = mDot_O2 b -> mDot_Tot a = mDot_Tot b ->
  mm_E a = mm_E b -> mm_O2 a = mm_O2 b ->
  Q_combustion a = Q_combustion b -> Q_out a = Q_out b ->
  Q_inWall a = Q_inWall b -> Q_inWall_J a = Q_inWall_J b ->
  p3_Pa a = p3_Pa b -> x3 a = x3 b ->
  fluid a = fluid b -> oxidizer a = oxidizer b ->
  h3_JperKg a = h3_JperKg b -> t3_K a = t3_K b ->
  h2_JperKg a = h2_JperKg b -> s2_JperKgK a = s2_JperKgK b ->
  t2_K a = t2_K b -> p1_Pa a = p1_Pa b ->
  t1_K a = t1_K b -> h1_JperKg a = h1_JperKg b ->
  work_EPump a = work_EPump b ->
  h2_O2_JperKg a = h2_O2_JperKg b -> s2_O2_JperKgK a = s2_O2_JperKgK b ->
  h1_O2_JperKg a = h1_O2_JperKg b -> T1_O2_K a = T1_O2_K b ->
  work_OPump a = work_OPump b ->
  a = b.
Proof. destruct a, b; cbn; intros; subst; reflexivity. Qed.

Section Lookups.

Variable CoolProp : query -> option R.

Lemma PropsSI_ok o n1 v1 n2 v2 f tr v :
  CoolProp (Query o n1 v1 n2 v2 f) = Some v ->
  PropsSI CoolProp o n1 v1 n2 v2 f tr = (inr v, tr ++ [Query o n1 v1 n2 v2 f]).
Proof. unfold PropsSI. cbv zeta. intros ->. reflexivity. Qed.

Lemma PropsSI_inr o n1 v1 n2 v2 f tr0 v tr :
  PropsSI CoolProp o n1 v1 n2 v2 f tr0 = (inr v, tr) ->
  CoolProp (Query o n1 v1 n2 v2 f) = Some v /\
  tr = tr0 ++ [Query o n1 v1 n2 v2 f].
Proof.
  unfold PropsSI. cbv zeta.
  destruct (CoolProp (Query o n1 v1 n2 v2 f)) as [w |]; intros H.
  - inversion H. split; reflexivity.
  - discriminate.
Qed.

Lemma PropsSI_total o n1 v1 n2 v2 f tr :
  (forall q, CoolProp q <> None) ->
  exists v, CoolProp (Query o n1 v1 n2 v2 f) = Some v /\
    PropsSI CoolProp o n1 v1 n2 v2 f tr =
    (inr v, tr ++ [Query o n1 v1 n2 v2 f]).
Proof.
  intros Htot. destruct (CoolProp (Query o n1 v1 n2 v2 f)) as [v |] eqn:E.
  - exists v. split; [reflexivity | apply PropsSI_ok; exact E].
  - exfalso. exact (Htot _ E).
Qed.

End Lookups.

(** From a run that returned, the steps that returned. *)
Ltac inv_run :=
  repeat match goal with
  | H : bind _ _ _ = (inr _, _) |- _ =>
      apply bind_inr in H;
      let a := fresh "a" in
      let t := fresh "tr" in
      let H1 := fresh "Hstep" in
      destruct H as (a & t & H1 & H); cbv beta in H
  | H : div _ _ _ = (inr _, _) |- _ =>
      apply div_inr in H; destruct H as (? & ? & ?)
  | H : PropsSI _ _ _ _ _ _ _ _ = (inr _, _) |- _ =>
      apply PropsSI_inr in H; destruct H as (? & ?)
  | H : pynum_div _ _ _ = (inr _, _) |- _ =>
      apply pynum_div_inr in H; destruct H as (? & ? & ?)
  | H : ret _ _ = (inr _, _) |- _ =>
      apply ret_inr in H; destruct H as (? & ?)
  end.

(** One step of a run whose divisors are non-zero and whose lookups are all
    answered ([Htot]). *)
Ltac run_step Htot :=
  match goal with
  | |- context [bind (div ?a ?b) ?k ?tr] =>
      rewrite (bind_ok (div a b) k tr (a / b) tr)
        by (apply div_ok; first [assumption | lra])
  | |- context [bind (PropsSI ?C ?o ?n1 ?v1 ?n2 ?v2 ?f) ?k ?tr] =>
      let v := fresh "v" in
      let Hv := fresh "Hv" in
      let Hrun := fresh "Hrun" in
      destruct (PropsSI_total C o n1 v1 n2 v2 f tr Htot) as (v & Hv & Hrun);
      rewrite (bind_ok _ k tr _ _ Hrun); clear Hrun
  end; cbv beta.

(** The answer of one of the two tables to a query. *)
Ltac answer C q :=
  eval cbv [table_CoolProp reference_CoolProp q_output q_name1 q_name2 q_prop1
            q_prop2 q_fluid String.eqb Ascii.eqb Bool.eqb andb] in (C q).

(** One step of a run on literal parameters and a table. *)
Ltac eval_step :=
  match goal with
  | |- context [bind (bind ?c ?k1) ?k2 ?tr] => rewrite (bind_assoc c k1 k2 tr)
  | |- context [bind (ret ?a) ?k ?tr] => rewrite (bind_ret a k tr)
  | |- context [bind (div ?a ?b) ?k ?tr] =>
      rewrite (bind_ok (div a b) k tr (a / b) tr) by (apply div_ok; lra)
  | |- context [bind (PropsSI ?C ?o ?n1 ?v1 ?n2 ?v2 ?f) ?k ?tr] =>
      let r := answer C (Query o n1 v1 n2 v2 f) in
      match r with
      | Some ?x =>
          rewrite (bind_ok _ k tr x _
                     (PropsSI_ok C o n1 v1 n2 v2 f tr x eq_refl))
      end
  | |- context [bind (pynum_div ?v ?b) ?k ?tr] =>
      rewrite (bind_ok _ k tr _ _ (pynum_div_ok v b tr ltac:(lra)))
  end;
  cbv beta;
  cbn [h3_JperKg mDot_E h2_O2_JperKg mDot_O2 mDot_Tot Q_out].

Ltac eval_parameters :=
  cbv [notebook_parameters starved_parameters invalid_parameters
       no_fuel_parameters];
  cbn [mass_flow_fuel mass_flow_ox feed_pressure tank_pressure wall_fraction].

(** ** The cells, one by one *)

Section Properties.

Variable CoolProp : query -> option R.

Lemma baseline_inr p tr0 ns tr :
  baseline CoolProp p tr0 = (inr ns, tr) -> baseline_post CoolProp p tr0 ns tr.
Proof.
  intros H. unfold baseline in H. cbv zeta in H.
  inv_run. subst.
  constructor; simpl; try reflexivity; try assumption.
  repeat rewrite <- app_assoc. reflexivity.
Qed.

Lemma baseline_returns p tr0 :
  mass_flow_fuel p <> 0 -> mass_flow_ox p <> 0 ->
  (forall q, CoolProp q <> None) ->
  returns (baseline CoolProp p) tr0 (baseline_post CoolProp p tr0).
Proof.
  intros HE HO Htot.
  assert (exists ns tr, baseline CoolProp p tr0 = (inr ns, tr))
    as (ns & tr & Hrun).
  { unfold baseline. cbv zeta. repeat run_step Htot.
    eexists. eexists. reflexivity. }
  exists ns, tr. split; [exact Hrun | apply baseline_inr; exact Hrun].
Qed.

Lemma improved_inr frac ns tr0 ns' tr :
  improved CoolProp frac ns tr0 = (inr ns', tr) ->
  improved_post CoolProp frac ns tr0 ns' tr.
Proof.
  intros H. unfold improved in H. cbv zeta in H.
  inv_run. subst.
  constructor; simpl; try reflexivity; try assumption.
  repeat rewrite <- app_assoc. reflexivity.
Qed.

Lemma improved_returns frac ns tr0 :
  mDot_E ns <> 0 ->
  (forall q, CoolProp q <> None) ->
  returns (improved CoolProp frac ns) tr0 (improved_post CoolProp frac ns tr0).
Proof.
  intros HE Htot.
  assert (exists ns' tr, improved CoolProp frac ns tr0 = (inr ns', tr))
    as (ns' & tr & Hrun).
  { unfold improved. cbv zeta. repeat run_step Htot.
    eexists. eexists. reflexivity. }
  exists ns', tr. split; [exact Hrun | apply improved_inr; exact Hrun].
Qed.

Lemma thrust_inr ns tr0 t tr :
  thrust CoolProp ns tr0 = (inr t, tr) -> thrust_post CoolProp ns tr0 t tr.
Proof.
  intros H. unfold thrust in H. cbv zeta in H.
  inv_run. subst.
  constructor; simpl; try reflexivity; try assumption.
Qed.

Lemma thrust_returns ns tr0 :
  mDot_Tot ns <> 0 ->
  CoolProp exhaust_query <> None ->
  returns (thrust CoolProp ns) tr0 (thrust_post CoolProp ns tr0).
Proof.
  intros HT Hq.
  assert (exists t tr, thrust CoolProp ns tr0 = (inr t, tr))
    as (t & tr & Hrun).
  { unfold thrust. cbv zeta.
    destruct (CoolProp exhaust_query) as [ha |] eqn:Eq; [| contradiction].
    rewrite (bind_ok _ _ _ _ _ (div_ok _ _ _ HT)). cbv beta.
    rewrite (bind_ok _ _ _ _ _ (div_ok _ _ _ HT)). cbv beta.
    rewrite (bind_ok _ _ _ _ _ (PropsSI_ok CoolProp _ _ _ _ _ _ _ _ Eq)).
    cbv beta.
    rewrite (bind_ok _ _ _ _ _ (pynum_div_ok _ 343 _ ltac:(lra))). cbv beta.
    eexists. eexists. reflexivity. }
  exists t, tr. split; [exact Hrun | apply thrust_inr; exact Hrun].
Qed.

(** ** The two orders of execution *)

Lemma run_baseline_inr p tr0 ns t tr :
  run_baseline CoolProp p tr0 = (inr (ns, t), tr) ->
  exists tr1, baseline_post CoolProp p tr0 ns tr1 /\ thrust_post CoolProp ns tr1 t tr.
Proof.
  intros H. unfold run_baseline in H. inv_run.
  match goal with E : (_, _) = (_, _) |- _ => inversion E; subst end.
  eexists. split; [apply baseline_inr | apply thrust_inr]; eassumption.
Qed.

Lemma run_improved_inr p frac tr0 ns' t tr :
  run_improved CoolProp p frac tr0 = (inr (ns', t), tr) ->
  exists ns tr1 tr2,
    baseline_post CoolProp p tr0 ns tr1 /\ improved_post CoolProp frac ns tr1 ns' tr2 /\
    thrust_post CoolProp ns' tr2 t tr.
Proof.
  intros H. unfold run_improved in H. inv_run.
  match goal with E : (_, _) = (_, _) |- _ => inversion E; subst end.
  eexists. eexists. eexists.
  split; [apply baseline_inr | split; [apply improved_inr | apply thrust_inr]];
    eassumption.
Qed.

Lemma run_baseline_returns p tr0 :
  mass_flow_fuel p <> 0 -> mass_flow_ox p <> 0 ->
  mass_flow_fuel p + mass_flow_ox p <> 0 ->
  (forall q, CoolProp q <> None) ->
  exists ns t tr, run_baseline CoolProp p tr0 = (inr (ns, t), tr).
Proof.
  intros HE HO HT Htot.
  destruct (baseline_returns p tr0 HE HO Htot) as (ns & tr1 & Hb & Pb).
  assert (HT' : mDot_Tot ns <> 0).
  { rewrite (bp_mDot_Tot _ _ _ _ _ Pb), (bp_mDot_E _ _ _ _ _ Pb),
      (bp_mDot_O2 _ _ _ _ _ Pb). exact HT. }
  destruct (thrust_returns ns tr1 HT' (Htot _)) as (t & tr & Ht & _).
  exists ns, t, tr. unfold run_baseline.
  rewrite (bind_ok _ _ _ _ _ Hb), (bind_ok _ _ _ _ _ Ht). reflexivity.
Qed.

Lemma run_improved_returns p frac tr0 :
  mass_flow_fuel p <> 0 -> mass_flow_ox p <> 0 ->
  mass_flow_fuel p + mass_flow_ox p <> 0 ->
  (forall q, CoolProp q <> None) ->
  exists ns' t tr, run_improved CoolProp p frac tr0 = (inr (ns', t), tr).
Proof.
  intros HE HO HT Htot.
  destruct (baseline_returns p tr0 HE HO Htot) as (ns & tr1 & Hb & Pb).
  destruct (improved_returns frac ns tr1 (bp_mDot_E_nonzero _ _ _ _ _ Pb) Htot)
    as (ns' & tr2 & Hi & Pi).
  assert (HT' : mDot_Tot ns' <> 0).
  { rewrite (ip_mDot_Tot _ _ _ _ _ _ Pi), (bp_mDot_Tot _ _ _ _ _ Pb),
      (bp_mDot_E _ _ _ _ _ Pb), (bp_mDot_O2 _ _ _ _ _ Pb). exact HT. }
  destruct (thrust_returns ns' tr2 HT' (Htot _)) as (t & tr & Ht & _).
  exists ns', t, tr. unfold run_improved.
  rewrite (bind_ok _ _ _ _ _ Hb), (bind_ok _ _ _ _ _ Hi),
    (bind_ok _ _ _ _ _ Ht). reflexivity.
Qed.

(** ** State back-computation *)

(** The lookups of a completed run of the baseline cells, in terms of the
    parameters. *)
Lemma baseline_anchored p tr0 ns tr :
  baseline_post CoolProp p tr0 ns tr ->
  Q_out ns = ((mass_flow_ox p / 0.032) / 3) * 1350 /\
  CoolProp (Query "Hmass" "P" (feed_pressure p) "Q" 0 "ethanol")
    = Some (h3_JperKg ns) /\
  state_at_enthalpy CoolProp (feed_pressure p) (h2_JperKg ns) "ethanol"
    (s2_JperKgK ns) (t2_K ns) /\
  state_at_entropy CoolProp (tank_pressure p) (s2_JperKgK ns) "ethanol"
    (t1_K ns) (h1_JperKg ns) /\
  CoolProp (Query "H" "P" (feed_pressure p) "Q" 0 "oxygen")
    = Some (h2_O2_JperKg ns) /\
  CoolProp (Query "S" "P" (feed_pressure p) "Q" 0 "oxygen")
    = Some (s2_O2_JperKgK ns) /\
  state_at_entropy CoolProp (tank_pressure p) (s2_O2_JperKgK ns) "oxygen"
    (T1_O2_K ns) (h1_O2_JperKg ns).
Proof.
  intros Pb.
  pose proof (bp_h3 _ _ _ _ _ Pb) as A3. pose proof (bp_s2 _ _ _ _ _ Pb) as As2.
  pose proof (bp_t2 _ _ _ _ _ Pb) as At2. pose proof (bp_t1 _ _ _ _ _ Pb) as At1.
  pose proof (bp_h1 _ _ _ _ _ Pb) as Ah1.
  pose proof (bp_h2_O2 _ _ _ _ _ Pb) as Ah2O.
  pose proof (bp_s2_O2 _ _ _ _ _ Pb) as As2O.
  pose proof (bp_h1_O2 _ _ _ _ _ Pb) as Ah1O.
  pose proof (bp_T1_O2 _ _ _ _ _ Pb) as At1O.
  rewrite (bp_p3_Pa _ _ _ _ _ Pb), (bp_x3 _ _ _ _ _ Pb),
    (bp_fluid _ _ _ _ _ Pb) in A3.
  rewrite (bp_p3_Pa _ _ _ _ _ Pb), (bp_fluid _ _ _ _ _ Pb) in As2, At2.
  rewrite (bp_p3_Pa _ _ _ _ _ Pb), (bp_oxidizer _ _ _ _ _ Pb) in Ah2O, As2O.
  rewrite (bp_p1_Pa _ _ _ _ _ Pb), (bp_fluid _ _ _ _ _ Pb) in At1, Ah1.
  rewrite (bp_p1_Pa _ _ _ _ _ Pb), (bp_oxidizer _ _ _ _ _ Pb) in Ah1O, At1O.
  unfold state_at_enthalpy, state_at_entropy.
  split.
  { rewrite (bp_Q_out _ _ _ _ _ Pb), (bp_mDot_O2 _ _ _ _ _ Pb),
      (bp_mm_O2 _ _ _ _ _ Pb), (bp_Q_combustion _ _ _ _ _ Pb). reflexivity. }
  repeat split; assumption.
Qed.

(** The lookups of a completed run of the improved cell after the baseline
    cells, in terms of the parameters. *)
Lemma improved_anchored p frac tr0 ns tr1 ns' tr2 :
  baseline_post CoolProp p tr0 ns tr1 ->
  improved_post CoolProp frac ns tr1 ns' tr2 ->
  state_at_enthalpy CoolProp (feed_pressure p) (h2_JperKg ns') "ethanol"
    (s2_JperKgK ns') (t2_K ns') /\
  state_at_entropy CoolProp (tank_pressure p) (s2_JperKgK ns') "ethanol"
    (t1_K ns') (h1_JperKg ns') /\
  In (Query "S" "P" (feed_pressure p) "Hmass" (h2_JperKg ns') "ethanol") tr2 /\
  In (Query "H" "P" (tank_pressure p) "S" (s2_JperKgK ns') "ethanol") tr2.
Proof.
  intros Pb Pi.
  pose proof (ip_s2 _ _ _ _ _ _ Pi) as As2.
  pose proof (ip_t2 _ _ _ _ _ _ Pi) as At2.
  pose proof (ip_t1 _ _ _ _ _ _ Pi) as At1.
  pose proof (ip_h1 _ _ _ _ _ _ Pi) as Ah1.
  pose proof (ip_log _ _ _ _ _ _ Pi) as Hlog.
  rewrite (bp_p3_Pa _ _ _ _ _ Pb), (bp_fluid _ _ _ _ _ Pb) in As2, At2.
  rewrite (bp_p1_Pa _ _ _ _ _ Pb), (bp_fluid _ _ _ _ _ Pb) in At1, Ah1.
  rewrite (bp_p3_Pa _ _ _ _ _ Pb), (bp_p1_Pa _ _ _ _ _ Pb),
    (bp_fluid _ _ _ _ _ Pb) in Hlog.
  unfold state_at_enthalpy, state_at_entropy.
  repeat split; try assumption;
    rewrite Hlog; apply in_or_app; right; simpl; tauto.
Qed.

(** The lookups of the injector state and of the states before the heat
    exchanger and in the tank are in the log of the baseline cells. *)
Lemma baseline_log_has p tr0 ns tr :
  baseline_post CoolProp p tr0 ns tr ->
  In (Query "Hmass" "P" (feed_pressure p) "Q" 0 "ethanol") tr /\
  In (Query "S" "P" (feed_pressure p) "Hmass" (h2_JperKg ns) "ethanol") tr /\
  In (Query "H" "P" (tank_pressure p) "S" (s2_JperKgK ns) "ethanol") tr /\
  In (Query "H" "P" (feed_pressure p) "Q" 0 "oxygen") tr /\
  In (Query "H" "P" (tank_pressure p) "S" (s2_O2_JperKgK ns) "oxygen") tr.
Proof.
  intros Pb. pose proof (bp_log _ _ _ _ _ Pb) as Hlog.
  rewrite (bp_p3_Pa _ _ _ _ _ Pb), (bp_p1_Pa _ _ _ _ _ Pb),
    (bp_x3 _ _ _ _ _ Pb), (bp_fluid _ _ _ _ _ Pb),
    (bp_oxidizer _ _ _ _ _ Pb) in Hlog.
  repeat split; rewrite Hlog; apply in_or_app; right; simpl; tauto.
Qed.

(** C1. Energy balance of the state before the heat exchanger. Whatever the
    heat fraction of the baseline cells and of the improved cell (in
    particular any fraction between 0 and 1), with non-zero mass flow rates
    and lookups that are answered the cells complete and bind [h2_JperKg] to
    the injector enthalpy minus the heat absorbed by the fuel per unit mass,
    so that adding that heat back gives the injector enthalpy [h3_JperKg].
    The injector enthalpy is CoolProp's answer for saturated liquid ethanol
    at the feed pressure; the mass flow rate is the fuel's; the heat absorbed
    is [Q_inWall_J] in the baseline cells and [Q_inWall_J*0.05] in the improved
    cell, [Q_inWall_J] being the fraction of the combustion heat [Q_out] in
    joules; and the entropy and temperature before the heat exchanger are
    looked up at the enthalpy so computed. The identity is exact in real
    arithmetic, which the floats approximate. *)
Theorem energy_balance (p : ScenarioParameters) (frac : R) (tr0 : list query) :
  mass_flow_fuel p <> 0 -> mass_flow_ox p <> 0 ->
  (forall q, CoolProp q <> None) ->
  returns (baseline CoolProp p) tr0 (fun ns tr1 =>
    mDot_E ns = mass_flow_fuel p /\
    Q_out ns = ((mass_flow_ox p / 0.032) / 3) * 1350 /\
    CoolProp (Query "Hmass" "P" (feed_pressure p) "Q" 0 "ethanol")
      = Some (h3_JperKg ns) /\
    In (Query "Hmass" "P" (feed_pressure p) "Q" 0 "ethanol") tr1 /\
    Q_inWall_J ns = Q_out ns * wall_fraction p * 1000 /\
    h2_JperKg ns = h3_JperKg ns - Q_inWall_J ns / mDot_E ns /\
    h2_JperKg ns + Q_inWall_J ns / mDot_E ns = h3_JperKg ns /\
    state_at_enthalpy CoolProp (feed_pressure p) (h2_JperKg ns) "ethanol"
      (s2_JperKgK ns) (t2_K ns) /\
    In (Query "S" "P" (feed_pressure p) "Hmass" (h2_JperKg ns) "ethanol") tr1 /\
    returns (improved CoolProp frac ns) tr1 (fun ns' tr2 =>
      mDot_E ns' = mDot_E ns /\
      Q_out ns' = Q_out ns /\
      h3_JperKg ns' = h3_JperKg ns /\
      Q_inWall_J ns' = Q_out ns' * frac * 1000 /\
      h2_JperKg ns' = h3_JperKg ns' - (Q_inWall_J ns' * 0.05) / mDot_E ns' /\
      h2_JperKg ns' + (Q_inWall_J ns' * 0.05) / mDot_E ns' = h3_JperKg ns' /\
      state_at_enthalpy CoolProp (feed_pressure p) (h2_JperKg ns') "ethanol"
        (s2_JperKgK ns') (t2_K ns') /\
      In (Query "S" "P" (feed_pressure p) "Hmass" (h2_JperKg ns') "ethanol")
        tr2)).
Proof.
  intros HE HO Htot.
  destruct (baseline_returns p tr0 HE HO Htot) as (ns & tr1 & Hb & Pb).
  exists ns, tr1. split; [exact Hb |].
  destruct (baseline_anchored _ _ _ _ Pb) as (HQ & Hh3 & Hst & _).
  destruct (baseline_log_has _ _ _ _ Pb) as (Hin3 & Hin2 & _).
  split; [apply Pb |]. split; [exact HQ |]. split; [exact Hh3 |].
  split; [exact Hin3 |].
  split; [rewrite (bp_Q_inWall_J _ _ _ _ _ Pb), (bp_Q_inWall _ _ _ _ _ Pb);
          reflexivity |].
  split; [apply Pb |].
  split; [rewrite (bp_h2 _ _ _ _ _ Pb); lra |].
  split; [exact Hst |]. split; [exact Hin2 |].
  destruct (improved_returns frac ns tr1 (bp_mDot_E_nonzero _ _ _ _ _ Pb) Htot)
    as (ns' & tr2 & Hi & Pi).
  exists ns', tr2. split; [exact Hi |].
  destruct (improved_anchored _ _ _ _ _ _ _ Pb Pi) as (Hst' & _ & Hin' & _).
  split; [apply Pi |]. split; [apply Pi |]. split; [apply Pi |].
  assert (Hh2 : h2_JperKg ns'
                = h3_JperKg ns' - (Q_inWall_J ns' * 0.05) / mDot_E ns').
  { rewrite (ip_h2 _ _ _ _ _ _ Pi), (ip_h3 _ _ _ _ _ _ Pi),
      (ip_mDot_E _ _ _ _ _ _ Pi). reflexivity. }
  split.
  { rewrite (ip_Q_inWall_J _ _ _ _ _ _ Pi), (ip_Q_inWall _ _ _ _ _ _ Pi),
      (ip_Q_out _ _ _ _ _ _ Pi). reflexivity. }
  split; [exact Hh2 |].
  split; [rewrite Hh2; lra |].
  split; [exact Hst' | exact Hin'].
Qed.

(** C2. The compound factor of the improved cell. With the fraction 0.5 of
    the notebook, [Q_inWall] is first bound to half of the combustion heat
    [Q_out] the baseline cells bound, and the enthalpy drop applied to the
    fuel at the state before the heat exchanger, from the injector enthalpy
    looked up by the baseline cells to the [h2_JperKg] at which the improved
    cell makes its lookups, is 0.5 x 0.05 x the combustion heat in joules,
    divided by the fuel mass flow rate. *)
Theorem improved_compound_factor (p : ScenarioParameters) (tr0 : list query) :
  mass_flow_fuel p <> 0 -> mass_flow_ox p <> 0 ->
  (forall q, CoolProp q <> None) ->
  returns (baseline CoolProp p) tr0 (fun ns tr1 =>
    mDot_E ns = mass_flow_fuel p /\
    Q_out ns = ((mass_flow_ox p / 0.032) / 3) * 1350 /\
    CoolProp (Query "Hmass" "P" (feed_pressure p) "Q" 0 "ethanol")
      = Some (h3_JperKg ns) /\
    returns (improved CoolProp improved_fraction ns) tr1 (fun ns' tr2 =>
      mDot_E ns' = mDot_E ns /\
      Q_out ns' = Q_out ns /\
      h3_JperKg ns' = h3_JperKg ns /\
      Q_inWall ns' = 0.5 * Q_out ns' /\
      Q_inWall_J ns' = Q_inWall ns' * 1000 /\
      h2_JperKg ns' = h3_JperKg ns' - (Q_inWall_J ns' * 0.05) / mDot_E ns' /\
      h3_JperKg ns' - h2_JperKg ns' =
      (0.5 * 0.05 * (Q_out ns' * 1000)) / mDot_E ns' /\
      h3_JperKg ns - h2_JperKg ns' =
      (0.5 * 0.05 * ((((mass_flow_ox p / 0.032) / 3) * 1350) * 1000))
      / mass_flow_fuel p /\
      state_at_enthalpy CoolProp (feed_pressure p) (h2_JperKg ns') "ethanol"
        (s2_JperKgK ns') (t2_K ns') /\
      In (Query "S" "P" (feed_pressure p) "Hmass" (h2_JperKg ns') "ethanol")
        tr2)).
Proof.
  intros HE HO Htot.
  destruct (baseline_returns p tr0 HE HO Htot) as (ns & tr1 & Hb & Pb).
  exists ns, tr1. split; [exact Hb |].
  destruct (baseline_anchored _ _ _ _ Pb) as (HQ & Hh3 & _).
  pose proof (bp_mDot_E _ _ _ _ _ Pb) as HmE.
  split; [exact HmE |]. split; [exact HQ |]. split; [exact Hh3 |].
  pose proof (bp_mDot_E_nonzero _ _ _ _ _ Pb) as HE'.
  destruct (improved_returns improved_fraction ns tr1 HE' Htot)
    as (ns' & tr2 & Hi & Pi).
  exists ns', tr2. split; [exact Hi |].
  destruct (improved_anchored _ _ _ _ _ _ _ Pb Pi) as (Hst' & _ & Hin' & _).
  split; [apply Pi |]. split; [apply Pi |]. split; [apply Pi |].
  split.
  { rewrite (ip_Q_inWall _ _ _ _ _ _ Pi), (ip_Q_out _ _ _ _ _ _ Pi).
    unfold improved_fraction. lra. }
  split; [apply Pi |].
  split.
  { rewrite (ip_h2 _ _ _ _ _ _ Pi), (ip_h3 _ _ _ _ _ _ Pi),
      (ip_mDot_E _ _ _ _ _ _ Pi). reflexivity. }
  assert (Hdrop : h3_JperKg ns - h2_JperKg ns'
                  = (0.5 * 0.05 * (Q_out ns * 1000)) / mDot_E ns).
  { rewrite (ip_h2 _ _ _ _ _ _ Pi), (ip_Q_inWall_J _ _ _ _ _ _ Pi),
      (ip_Q_inWall _ _ _ _ _ _ Pi).
    unfold improved_fraction. field. exact HE'. }
  split.
  { rewrite (ip_h3 _ _ _ _ _ _ Pi), (ip_Q_out _ _ _ _ _ _ Pi),
      (ip_mDot_E _ _ _ _ _ _ Pi). exact Hdrop. }
  split; [rewrite Hdrop, HQ, HmE; reflexivity |].
  split; [exact Hst' | exact Hin'].
Qed.

Lemma incl_app_right {A : Type} (l l0 l1 : list A) :
  incl l l1 -> incl l (l0 ++ l1).
Proof. intros H x Hx. apply in_or_app. right. apply H. exact Hx. Qed.

Lemma baseline_tank_lookups p tr0 ns tr :
  baseline_post CoolProp p tr0 ns tr -> incl (tank_lookups ns) tr.
Proof.
  intros Pb. rewrite (bp_log _ _ _ _ _ Pb). apply incl_app_right.
  unfold tank_lookups. intros q Hq. simpl in Hq. simpl.
  repeat (destruct Hq as [Hq | Hq]; [subst q; tauto |]). contradiction.
Qed.

(** C4. Isentropic pumps. In the baseline cells and again after the improved
    cell, the tank temperature and enthalpy of the fuel and of the oxidizer
    are CoolProp's answers at the tank pressure and at the very entropy bound
    for the state before the heat exchanger, and the log holds these lookups:
    the tank state has that entropy by the construction of the lookup, with
    no arithmetic in between. *)
Theorem isentropic_tank_state (p : ScenarioParameters) (frac : R)
    (tr0 : list query) :
  mass_flow_fuel p <> 0 -> mass_flow_ox p <> 0 ->
  (forall q, CoolProp q <> None) ->
  returns (baseline CoolProp p) tr0 (fun ns tr1 =>
    p1_Pa ns = tank_pressure p /\
    isentropic_pumps CoolProp ns /\
    incl (tank_lookups ns) tr1 /\
    returns (improved CoolProp frac ns) tr1 (fun ns' tr2 =>
      p1_Pa ns' = tank_pressure p /\
      isentropic_pumps CoolProp ns' /\
      incl (tank_lookups ns') tr2)).
Proof.
  intros HE HO Htot.
  destruct (baseline_returns p tr0 HE HO Htot) as (ns & tr1 & Hb & Pb).
  exists ns, tr1. split; [exact Hb |].
  assert (Hns : isentropic_pumps CoolProp ns).
  { unfold isentropic_pumps, state_at_entropy.
    repeat split; apply Pb. }
  pose proof (baseline_tank_lookups p tr0 ns tr1 Pb) as Hlog.
  split; [apply Pb | split; [exact Hns | split; [exact Hlog |]]].
  destruct (improved_returns frac ns tr1 (bp_mDot_E_nonzero _ _ _ _ _ Pb) Htot)
    as (ns' & tr2 & Hi & Pi).
  exists ns', tr2. split; [exact Hi |].
  split; [rewrite (ip_p1_Pa _ _ _ _ _ _ Pi); apply Pb |].
  destruct Hns as (_ & _ & Hs & Ht & Hh).
  split.
  - unfold isentropic_pumps, state_at_entropy.
    rewrite (ip_p3_Pa _ _ _ _ _ _ Pi), (ip_p1_Pa _ _ _ _ _ _ Pi),
      (ip_fluid _ _ _ _ _ _ Pi), (ip_oxidizer _ _ _ _ _ _ Pi),
      (ip_s2_O2 _ _ _ _ _ _ Pi), (ip_T1_O2 _ _ _ _ _ _ Pi),
      (ip_h1_O2 _ _ _ _ _ _ Pi).
    repeat split; try assumption; apply Pi.
  - unfold tank_lookups.
    rewrite (ip_p1_Pa _ _ _ _ _ _ Pi), (ip_fluid _ _ _ _ _ _ Pi),
      (ip_oxidizer _ _ _ _ _ _ Pi), (ip_s2_O2 _ _ _ _ _ _ Pi).
    intros q Hq. simpl in Hq.
    destruct Hq as [Hq | [Hq | Hq]].
    + rewrite (ip_log _ _ _ _ _ _ Pi). apply in_or_app. right.
      subst q. simpl. tauto.
    + rewrite (ip_log _ _ _ _ _ _ Pi). apply in_or_app. right.
      subst q. simpl. tauto.
    + rewrite (ip_log _ _ _ _ _ _ Pi). apply in_or_app. left.
      apply Hlog. unfold tank_lookups. simpl. tauto.
Qed.

(** ** Pump work *)

(** C5. Pump work is the arithmetic the cells write: the inverse of the mass
    flow rate times the enthalpy at the pump exit minus the enthalpy at the
    pump inlet. For the fuel pump the mass flow rate is the fuel's, the exit is
    the state before the heat exchanger (the enthalpy the energy balance
    gives, at which that state is looked up) and the inlet is the tank state
    looked up at the tank pressure and the entropy of the exit, in the
    baseline cells and after the improved cell with the rebound enthalpies.
    For the oxidizer pump of the baseline cells the mass flow rate is the
    oxidizer's, the exit is saturated liquid at the feed pressure and the
    inlet the tank state at its entropy; the improved cell leaves that work
    as it was. *)
Theorem pump_work_literal (p : ScenarioParameters) (frac : R)
    (tr0 : list query) :
  mass_flow_fuel p <> 0 -> mass_flow_ox p <> 0 ->
  (forall q, CoolProp q <> None) ->
  returns (baseline CoolProp p) tr0 (fun ns tr1 =>
    work_EPump ns = (1 / mDot_E ns) * (h2_JperKg ns - h1_JperKg ns) /\
    work_OPump ns = (1 / mDot_O2 ns) * (h2_O2_JperKg ns - h1_O2_JperKg ns) /\
    mDot_E ns = mass_flow_fuel p /\
    mDot_O2 ns = mass_flow_ox p /\
    CoolProp (Query "Hmass" "P" (feed_pressure p) "Q" 0 "ethanol")
      = Some (h3_JperKg ns) /\
    h2_JperKg ns
    = h3_JperKg ns
      - ((((mass_flow_ox p / 0.032) / 3) * 1350) * wall_fraction p * 1000)
        / mass_flow_fuel p /\
    state_at_enthalpy CoolProp (feed_pressure p) (h2_JperKg ns) "ethanol"
      (s2_JperKgK ns) (t2_K ns) /\
    state_at_entropy CoolProp (tank_pressure p) (s2_JperKgK ns) "ethanol"
      (t1_K ns) (h1_JperKg ns) /\
    CoolProp (Query "H" "P" (feed_pressure p) "Q" 0 "oxygen")
      = Some (h2_O2_JperKg ns) /\
    CoolProp (Query "S" "P" (feed_pressure p) "Q" 0 "oxygen")
      = Some (s2_O2_JperKgK ns) /\
    state_at_entropy CoolProp (tank_pressure p) (s2_O2_JperKgK ns) "oxygen"
      (T1_O2_K ns) (h1_O2_JperKg ns) /\
    In (Query "H" "P" (tank_pressure p) "S" (s2_JperKgK ns) "ethanol") tr1 /\
    In (Query "H" "P" (feed_pressure p) "Q" 0 "oxygen") tr1 /\
    In (Query "H" "P" (tank_pressure p) "S" (s2_O2_JperKgK ns) "oxygen") tr1 /\
    returns (improved CoolProp frac ns) tr1 (fun ns' tr2 =>
      work_EPump ns' = (1 / mDot_E ns') * (h2_JperKg ns' - h1_JperKg ns') /\
      mDot_E ns' = mDot_E ns /\
      h2_JperKg ns'
      = h3_JperKg ns
        - ((((mass_flow_ox p / 0.032) / 3) * 1350) * frac * 1000 * 0.05)
          / mass_flow_fuel p /\
      state_at_enthalpy CoolProp (feed_pressure p) (h2_JperKg ns') "ethanol"
        (s2_JperKgK ns') (t2_K ns') /\
      state_at_entropy CoolProp (tank_pressure p) (s2_JperKgK ns') "ethanol"
        (t1_K ns') (h1_JperKg ns') /\
      In (Query "H" "P" (tank_pressure p) "S" (s2_JperKgK ns') "ethanol") tr2 /\
      work_OPump ns' = work_OPump ns)).
Proof.
  intros HE HO Htot.
  destruct (baseline_returns p tr0 HE HO Htot) as (ns & tr1 & Hb & Pb).
  exists ns, tr1. split; [exact Hb |].
  destruct (baseline_anchored _ _ _ _ Pb)
    as (HQ & Hh3 & Hst & Htank & Hh2O & Hs2O & HtankO).
  destruct (baseline_log_has _ _ _ _ Pb) as (_ & _ & Hin1 & Hin2O & Hin1O).
  pose proof (bp_mDot_E _ _ _ _ _ Pb) as HmE.
  split; [apply Pb |]. split; [apply Pb |].
  split; [exact HmE |]. split; [apply Pb |]. split; [exact Hh3 |].
  split.
  { rewrite (bp_h2 _ _ _ _ _ Pb), (bp_Q_inWall_J _ _ _ _ _ Pb),
      (bp_Q_inWall _ _ _ _ _ Pb), HQ, HmE. reflexivity. }
  split; [exact Hst |]. split; [exact Htank |]. split; [exact Hh2O |].
  split; [exact Hs2O |]. split; [exact HtankO |].
  split; [exact Hin1 |]. split; [exact Hin2O |]. split; [exact Hin1O |].
  destruct (improved_returns frac ns tr1 (bp_mDot_E_nonzero _ _ _ _ _ Pb) Htot)
    as (ns' & tr2 & Hi & Pi).
  exists ns', tr2. split; [exact Hi |].
  destruct (improved_anchored _ _ _ _ _ _ _ Pb Pi)
    as (Hst' & Htank' & _ & Hin1').
  split; [rewrite (ip_mDot_E _ _ _ _ _ _ Pi); apply Pi |].
  split; [apply Pi |].
  split.
  { rewrite (ip_h2 _ _ _ _ _ _ Pi), (ip_Q_inWall_J _ _ _ _ _ _ Pi),
      (ip_Q_inWall _ _ _ _ _ _ Pi), HQ, HmE. reflexivity. }
  split; [exact Hst' |]. split; [exact Htank' |]. split; [exact Hin1' |].
  apply Pi.
Qed.

(** ** Combustion heat *)

(** C6. The combustion heat rate [Q_out] is the oxidizer molar flow rate
    [mDot_O2/mm_O2] divided by 3 and multiplied by 1350, and the wall heat
    [Q_inWall] of the baseline cells is that rate times the fraction, 0.05 in
    the notebook. With 0.125 kg/s of oxidizer, 0.032 kg/mol and 0.05 the wall
    heat is 87.890625 kJ/s, and 87890.625 J/s in [Q_inWall_J], which the
    notebook prints as 87.89 and 87890.62. *)
Theorem wall_heat_rate (p : ScenarioParameters) (tr0 : list query) :
  mass_flow_fuel p <> 0 -> mass_flow_ox p <> 0 ->
  (forall q, CoolProp q <> None) ->
  returns (baseline CoolProp p) tr0 (fun ns _ =>
    mDot_O2 ns = mass_flow_ox p /\ mm_O2 ns = 0.032 /\
    Q_out ns = ((mDot_O2 ns / mm_O2 ns) / 3) * 1350 /\
    Q_inWall ns = Q_out ns * wall_fraction p /\
    (mass_flow_ox p = 0.125 -> wall_fraction p = 0.05 ->
     Q_inWall ns = 87.890625 /\
     Q_inWall_J ns = 87890.625 /\
     Rabs (Q_inWall ns - 87.89) < 0.005 /\
     Rabs (Q_inWall_J ns - 87890) < 1)).
Proof.
  intros HE HO Htot.
  destruct (baseline_returns p tr0 HE HO Htot) as (ns & tr & Hb & Pb).
  exists ns, tr. split; [exact Hb |].
  pose proof (bp_mDot_O2 _ _ _ _ _ Pb) as HmO.
  pose proof (bp_mm_O2 _ _ _ _ _ Pb) as Hmm.
  pose proof (bp_Q_out _ _ _ _ _ Pb) as HQ.
  rewrite (bp_Q_combustion _ _ _ _ _ Pb) in HQ.
  pose proof (bp_Q_inWall _ _ _ _ _ Pb) as HW.
  pose proof (bp_Q_inWall_J _ _ _ _ _ Pb) as HJ.
  repeat (split; [assumption |]).
  intros Hox Hfrac.
  assert (HQv : Q_out ns = 1757.8125) by (rewrite HQ, HmO, Hmm, Hox; lra).
  assert (HWv : Q_inWall ns = 87.890625) by (rewrite HW, HQv, Hfrac; lra).
  assert (HJv : Q_inWall_J ns = 87890.625) by (rewrite HJ, HWv; lra).
  repeat split; try assumption.
  - rewrite HWv. unfold Rabs. destruct (Rcase_abs _); lra.
  - rewrite HJv. unfold Rabs. destruct (Rcase_abs _); lra.
Qed.

(** ** Thrust *)

(** C3. The thrust cell. [h2_gas] is the mass-flow-weighted mean of the
    injector enthalpies of fuel and oxidizer plus 0.95 of the combustion heat
    in joules over the total mass flow rate; [h3_gas] is CoolProp's answer to
    the exhaust query; the velocity [V] is the square root of twice their
    difference, and the thrust is the total mass flow rate times [V], with no
    pressure term. When [h2_gas] is below [h3_gas] the root is the complex
    one. *)
Theorem thrust_formula (ns : Namespace) (tr0 : list query) :
  mDot_Tot ns <> 0 ->
  CoolProp exhaust_query <> None ->
  returns (thrust CoolProp ns) tr0 (fun t _ =>
    let h_mixed :=
      (h3_JperKg ns * mDot_E ns + h2_O2_JperKg ns * mDot_O2 ns) / mDot_Tot ns in
    let h_before := h_mixed + (0.95 * (Q_out ns * 1000)) / mDot_Tot ns in
    let h_after := h3_gas t in
    h2_gas t = h_before /\
    CoolProp exhaust_query = Some h_after /\
    Thrust_N t = pynum_mul (mDot_Tot ns) (V t) /\
    (h_after <= h_before ->
     V t = PyFloat (sqrt (2 * (h_before - h_after))) /\
     Thrust_N t = PyFloat (mDot_Tot ns * sqrt (2 * (h_before - h_after)))) /\
    (h_before < h_after ->
     V t = PyComplex 0 (sqrt (2 * (h_after - h_before))))).
Proof.
  intros HT Hq.
  destruct (thrust_returns ns tr0 HT Hq) as (t & tr & Ht & Pt).
  exists t, tr. split; [exact Ht |]. cbv zeta.
  assert (Hh2 : h2_gas t =
    (h3_JperKg ns * mDot_E ns + h2_O2_JperKg ns * mDot_O2 ns) / mDot_Tot ns +
    (0.95 * (Q_out ns * 1000)) / mDot_Tot ns).
  { rewrite (tp_h2_gas _ _ _ _ _ Pt), (tp_h1_gas _ _ _ _ _ Pt). lra. }
  rewrite <- Hh2.
  split; [reflexivity |].
  split; [apply Pt |].
  split; [apply Pt |].
  split.
  - intros Hle.
    assert (HV : V t = PyFloat (sqrt (2 * (h2_gas t - h3_gas t)))).
    { rewrite (tp_V _ _ _ _ _ Pt). apply pow_half_nonneg. lra. }
    split; [exact HV |].
    rewrite (tp_Thrust_N _ _ _ _ _ Pt), HV. reflexivity.
  - intros Hlt.
    rewrite (tp_V _ _ _ _ _ Pt), pow_half_neg by lra.
    f_equal. f_equal. lra.
Qed.

(** The thrust cell reads six names; on two namespaces that agree on them it
    returns the same values or raises the same exception, whatever the log. *)
Lemma thrust_reads ns ns' tr tr' :
  h3_JperKg ns' = h3_JperKg ns -> mDot_E ns' = mDot_E ns ->
  h2_O2_JperKg ns' = h2_O2_JperKg ns -> mDot_O2 ns' = mDot_O2 ns ->
  mDot_Tot ns' = mDot_Tot ns -> Q_out ns' = Q_out ns ->
  fst (thrust CoolProp ns' tr') = fst (thrust CoolProp ns tr).
Proof.
  unfold thrust. cbv zeta. intros -> -> -> -> -> ->.
  unfold bind, div, PropsSI, pynum_div, ret, raise. cbv zeta.
  destruct (Req_dec_T (mDot_Tot ns) 0); [reflexivity |].
  destruct (CoolProp _); [| reflexivity].
  destruct (Req_dec_T 343 0); [reflexivity |].
  destruct (pow_half _); reflexivity.
Qed.

(** C7. The thrust does not depend on the scenario. Run after the baseline
    cells, or after the improved cell as the execution counts of the notebook
    have it, the thrust cell binds the same values, [V] and [Thrust_N] among
    them: it reads the injector enthalpies, the mass flow rates and [Q_out],
    none of which the improved cell rebinds. *)
Theorem thrust_scenario_independent (p : ScenarioParameters) (frac : R)
    (tr0 : list query) :
  mass_flow_fuel p <> 0 -> mass_flow_ox p <> 0 ->
  mass_flow_fuel p + mass_flow_ox p <> 0 ->
  (forall q, CoolProp q <> None) ->
  returns (run_baseline CoolProp p) tr0 (fun b _ =>
    returns (run_improved CoolProp p frac) tr0 (fun i _ =>
      V (snd i) = V (snd b) /\ Thrust_N (snd i) = Thrust_N (snd b) /\
      snd i = snd b)).
Proof.
  intros HE HO HT Htot.
  destruct (run_baseline_returns p tr0 HE HO HT Htot) as (ns & t & tr & Hb).
  destruct (run_improved_returns p frac tr0 HE HO HT Htot)
    as (ns' & t' & tr' & Hi).
  exists (ns, t), tr. split; [exact Hb |].
  exists (ns', t'), tr'. split; [exact Hi |].
  cbn [snd].
  assert (E : t' = t).
  { unfold run_baseline in Hb. unfold run_improved in Hi.
    apply bind_inr in Hb. destruct Hb as (ns1 & tr1 & Hb1 & Hb).
    apply bind_inr in Hb. destruct Hb as (t1 & tr2 & Ht1 & Hb).
    apply ret_inr in Hb. destruct Hb as (Hb & _).
    apply bind_inr in Hi. destruct Hi as (ns2 & tr3 & Hb2 & Hi).
    apply bind_inr in Hi. destruct Hi as (ns3 & tr4 & Hi3 & Hi).
    apply bind_inr in Hi. destruct Hi as (t3 & tr5 & Ht3 & Hi).
    apply ret_inr in Hi. destruct Hi as (Hi & _).
    inversion Hb; subst ns1 t1. inversion Hi; subst ns3 t3.
    rewrite Hb1 in Hb2. inversion Hb2; subst ns2 tr3.
    apply improved_inr in Hi3.
    pose proof (thrust_reads ns ns' tr1 tr4
                  (ip_h3 _ _ _ _ _ _ Hi3) (ip_mDot_E _ _ _ _ _ _ Hi3)
                  (ip_h2_O2 _ _ _ _ _ _ Hi3) (ip_mDot_O2 _ _ _ _ _ _ Hi3)
                  (ip_mDot_Tot _ _ _ _ _ _ Hi3) (ip_Q_out _ _ _ _ _ _ Hi3))
      as Hsame.
    rewrite Ht1, Ht3 in Hsame. cbn [fst] in Hsame.
    inversion Hsame. reflexivity. }
  subst t'. repeat split.
Qed.

(** C10. The value subtracted in the velocity is a temperature. The exhaust
    query asks for "T" and gives "T" as its second input, so a CoolProp that
    returns a requested input binds [h3_gas] to 973 x 0.8 = 778.4, a
    temperature in kelvin, and the velocity is the root of
    2 x ([h2_gas] - 778.4). *)
Theorem exhaust_value_is_temperature (ns : Namespace) (tr0 : list query) :
  mDot_Tot ns <> 0 ->
  returns_requested_input CoolProp ->
  returns (thrust CoolProp ns) tr0 (fun t tr =>
    tr = tr0 ++ [Query "T" "P" 101325 "T" (973 * 0.8) "CO2"] /\
    h3_gas t = 778.4 /\
    V t = pow_half (2 * (h2_gas t - 778.4)) /\
    (778.4 <= h2_gas t -> V t = PyFloat (sqrt (2 * (h2_gas t - 778.4))))).
Proof.
  intros HT Hecho.
  assert (Hq : CoolProp exhaust_query = Some (973 * 0.8)).
  { apply (Hecho exhaust_query). reflexivity. }
  destruct (thrust_returns ns tr0 HT) as (t & tr & Ht & Pt).
  { rewrite Hq. discriminate. }
  exists t, tr. split; [exact Ht |].
  assert (H3 : h3_gas t = 778.4).
  { pose proof (tp_h3_gas _ _ _ _ _ Pt) as E. rewrite Hq in E.
    inversion E as [E']. lra. }
  split; [apply Pt |].
  split; [exact H3 |].
  assert (HV : V t = pow_half (2 * (h2_gas t - 778.4))).
  { rewrite (tp_V _ _ _ _ _ Pt), H3. reflexivity. }
  split; [exact HV |].
  intros Hle. rewrite HV. apply pow_half_nonneg. lra.
Qed.

(** C8, as the cell behaves. For a positive total mass flow rate: when
    [h2_gas] is at least [h3_gas] the velocity and the thrust are
    non-negative floats; when it is below, nothing is raised and nothing is
    flagged: [V] and [Thrust_N] are bound to complex numbers of real part 0,
    and the cell completes. *)
Theorem thrust_sign (ns : Namespace) (tr0 : list query) :
  0 < mDot_Tot ns ->
  CoolProp exhaust_query <> None ->
  returns (thrust CoolProp ns) tr0 (fun t _ =>
    (h3_gas t <= h2_gas t ->
     exists v F, V t = PyFloat v /\ Thrust_N t = PyFloat F /\
                 0 <= v /\ 0 <= F) /\
    (h2_gas t < h3_gas t ->
     V t = PyComplex 0 (sqrt (2 * (h3_gas t - h2_gas t))) /\
     Thrust_N t =
     PyComplex 0 (mDot_Tot ns * sqrt (2 * (h3_gas t - h2_gas t))))).
Proof.
  intros HT Hq.
  destruct (thrust_returns ns tr0) as (t & tr & Ht & Pt);
    [lra | exact Hq |].
  exists t, tr. split; [exact Ht |]. split.
  - intros Hle.
    assert (HV : V t = PyFloat (sqrt (2 * (h2_gas t - h3_gas t)))).
    { rewrite (tp_V _ _ _ _ _ Pt). apply pow_half_nonneg. lra. }
    exists (sqrt (2 * (h2_gas t - h3_gas t))),
      (mDot_Tot ns * sqrt (2 * (h2_gas t - h3_gas t))).
    split; [exact HV |].
    split; [rewrite (tp_Thrust_N _ _ _ _ _ Pt), HV; reflexivity |].
    pose proof (sqrt_pos (2 * (h2_gas t - h3_gas t))) as Hs.
    split; [exact Hs |].
    apply Rmult_le_pos; lra.
  - intros Hlt.
    assert (HV : V t = PyComplex 0 (sqrt (2 * (h3_gas t - h2_gas t)))).
    { rewrite (tp_V _ _ _ _ _ Pt), pow_half_neg by lra. f_equal. f_equal. lra. }
    split; [exact HV |].
    rewrite (tp_Thrust_N _ _ _ _ _ Pt), HV. unfold pynum_mul.
    f_equal; lra.
Qed.

(** ** Parameters are not validated *)

Lemma baseline_zero_fuel p tr0 :
  mass_flow_fuel p = 0 ->
  (forall q, CoolProp q <> None) ->
  exists tr, baseline CoolProp p tr0 = (inl ZeroDivisionError, tr) /\
             length tr = (length tr0 + 4)%nat.
Proof.
  intros HE Htot. unfold baseline. cbv zeta.
  do 6 run_step Htot.
  rewrite (bind_raise _ _ _ _ _ (div_zero _ _ _ HE)).
  eexists. split; [reflexivity |].
  repeat rewrite length_app. simpl. repeat rewrite <- Nat.add_assoc.
  reflexivity.
Qed.

Lemma baseline_zero_ox p tr0 :
  mass_flow_fuel p <> 0 -> mass_flow_ox p = 0 ->
  (forall q, CoolProp q <> None) ->
  exists tr, baseline CoolProp p tr0 = (inl ZeroDivisionError, tr) /\
             length tr = (length tr0 + 12)%nat.
Proof.
  intros HE HO Htot. unfold baseline. cbv zeta.
  do 16 run_step Htot.
  rewrite (bind_raise _ _ _ _ _ (div_zero _ _ _ HO)).
  eexists. split; [reflexivity |].
  repeat rewrite length_app. simpl. repeat rewrite <- Nat.add_assoc.
  reflexivity.
Qed.

(** C9, as the cells behave. The parameters are never inspected. Given that
    the lookups succeed, a run with non-zero mass flow rates completes after
    its twelve lookups whatever their signs and whatever the fraction; the
    only error a parameter can cause is [ZeroDivisionError], for a fuel mass
    flow rate of zero at the energy balance, after four lookups, and for an
    oxidizer mass flow rate of zero at the oxidizer pump work, after all
    twelve. *)
Theorem no_parameter_validation (p : ScenarioParameters) (tr0 : list query) :
  (forall q, CoolProp q <> None) ->
  (mass_flow_fuel p <> 0 -> mass_flow_ox p <> 0 ->
   exists ns tr, baseline CoolProp p tr0 = (inr ns, tr) /\
                 length tr = (length tr0 + 12)%nat) /\
  (mass_flow_fuel p = 0 ->
   exists tr, baseline CoolProp p tr0 = (inl ZeroDivisionError, tr) /\
              length tr = (length tr0 + 4)%nat) /\
  (mass_flow_fuel p <> 0 -> mass_flow_ox p = 0 ->
   exists tr, baseline CoolProp p tr0 = (inl ZeroDivisionError, tr) /\
              length tr = (length tr0 + 12)%nat).
Proof.
  intros Htot. split; [| split].
  - intros HE HO.
    destruct (baseline_returns p tr0 HE HO Htot) as (ns & tr & Hb & Pb).
    exists ns, tr. split; [exact Hb |].
    rewrite (bp_log _ _ _ _ _ Pb), length_app. reflexivity.
  - intros HE. apply baseline_zero_fuel; assumption.
  - intros HE HO. apply baseline_zero_ox; assumption.
Qed.

End Properties.

(** ** The notebook on the table *)

(** The baseline cells on the notebook's literals bind the namespace written
    out in [notebook_namespace]: a wall heat of 87890.625 J/s and pump works of
    7912.98 and 34610.82, as printed. *)
Example notebook_baseline_run :
  fst (baseline table_CoolProp notebook_parameters []) = inr notebook_namespace.
Proof.
  unfold baseline. cbv zeta. eval_parameters.
  repeat eval_step.
  unfold ret. cbn [fst]. apply inr_ext.
  apply Namespace_ext;
    cbn [notebook_namespace mDot_E mDot_O2 mDot_Tot mm_E mm_O2 Q_combustion
         Q_out Q_inWall Q_inWall_J p3_Pa x3 fluid oxidizer h3_JperKg t3_K
         h2_JperKg s2_JperKgK t2_K p1_Pa t1_K h1_JperKg work_EPump
         h2_O2_JperKg s2_O2_JperKgK h1_O2_JperKg T1_O2_K work_OPump];
    first [reflexivity | lra].
Qed.

(** The thrust cell on that namespace: the velocity prints as 3681.79 and the
    thrust as 920.45. *)
Example notebook_thrust_run :
  returns (thrust table_CoolProp notebook_namespace) [] (fun t _ =>
    h3_gas t = 778.4 /\
    exists v F, V t = PyFloat v /\ Thrust_N t = PyFloat F /\
      3681.79 <= v < 3681.80 /\ 920.44 < F < 920.46).
Proof.
  unfold returns, thrust. cbv zeta. unfold notebook_namespace.
  cbn [h3_JperKg mDot_E h2_O2_JperKg mDot_O2 mDot_Tot Q_out].
  eexists. eexists. split.
  { repeat eval_step. unfold ret. reflexivity. }
  cbn [h3_gas V Thrust_N].
  split; [lra |].
  rewrite pow_half_nonneg by lra.
  eexists. eexists. split; [reflexivity |]. split; [reflexivity |].
  set (x := 2 * _).
  assert (Hx : x = 13555578.03) by (unfold x; lra).
  assert (Hlo : 3681.79 <= sqrt x).
  { rewrite <- (sqrt_square 3681.79) by lra. apply sqrt_le_1_alt. lra. }
  assert (Hhi : sqrt x < 3681.80).
  { rewrite <- (sqrt_square 3681.80) by lra. apply sqrt_lt_1_alt. lra. }
  lra.
Qed.

(** With no fuel flow the run stops at the division of the energy balance,
    the four lookups of the injector state already made. *)
Example no_fuel_run :
  baseline table_CoolProp no_fuel_parameters [] =
  (inl ZeroDivisionError,
   [ Query "H" "P" 1200000 "Q" 0 "ethanol";
     Query "T" "P" 300000 "H" 0 "ethanol";
     Query "Hmass" "P" 1200000 "Q" 0 "ethanol";
     Query "T" "P" 1200000 "Q" 0 "ethanol" ]).
Proof.
  unfold baseline. cbv zeta. eval_parameters.
  do 6 eval_step.
  rewrite (bind_raise _ _ _ _ _ (div_zero _ 0 _ eq_refl)).
  reflexivity.
Qed.

Lemma table_CoolProp_returns_requested_input :
  returns_requested_input table_CoolProp.
Proof.
  intros q Hq. unfold table_CoolProp. cbv zeta.
  rewrite Hq, String.eqb_refl. reflexivity.
Qed.

(** ** The notebook's literals in binary64 *)

Module Binary64Facts.

Import PrimFloat.
Local Open Scope float_scope.
#[local] Set Warnings "-inexact-float".

(** The wall heat in joules is the float 87890.625, which two decimals print
    as 87890.62: on the notebook's literals the roundings of cell [5] cancel. *)
Example wall_heat_binary64 :
  Binary64.Q_inWall = 87.890625 /\ Binary64.Q_inWall_J = 87890.625.
Proof. split; reflexivity. Qed.

(** On the printed injector enthalpy the energy balance holds to the last
    bit, in the baseline cells and in the improved cell. *)
Example energy_balance_binary64 :
  Binary64.h2_JperKg Binary64.h3_printed +
    Binary64.Q_inWall_J / Binary64.mDot_E = Binary64.h3_printed /\
  Binary64.h2_JperKg_improved Binary64.h3_printed +
    (Binary64.Q_inWall_J_improved * 0.05) / Binary64.mDot_E
  = Binary64.h3_printed.
Proof. split; reflexivity. Qed.

(** The product 973*0.8 is the float next above the one nearest to 778.4. *)
Example exhaust_temperature_binary64 :
  Binary64.exhaust_temperature = 778.4000000000001 /\
  Binary64.exhaust_temperature = next_up 778.4.
Proof. split; reflexivity. Qed.

End Binary64Facts.

(** ** The statements on concrete runs *)

(** C1 on the notebook's literals. *)
Lemma energy_balance_witness :
  exists ns tr1 ns' tr2,
    baseline table_CoolProp notebook_parameters [] = (inr ns, tr1) /\
    improved table_CoolProp improved_fraction ns tr1 = (inr ns', tr2) /\
    h2_JperKg ns + Q_inWall_J ns / mDot_E ns = h3_JperKg ns /\
    h2_JperKg ns' + (Q_inWall_J ns' * 0.05) / mDot_E ns' = h3_JperKg ns'.
Proof.
  destruct (energy_balance table_CoolProp notebook_parameters
              improved_fraction [])
    as (ns & tr1 & Hb & _ & _ & _ & _ & _ & _ & Hbal & _ & _ &
        (ns' & tr2 & Hi & _ & _ & _ & _ & _ & Hbal' & _));
    [simpl; lra | simpl; lra | discriminate |].
  exists ns, tr1, ns', tr2. repeat (split; [assumption |]); assumption.
Defined.

(** C2 on the notebook's literals. *)
Lemma improved_compound_factor_witness :
  exists ns tr1 ns' tr2,
    baseline table_CoolProp notebook_parameters [] = (inr ns, tr1) /\
    improved table_CoolProp improved_fraction ns tr1 = (inr ns', tr2) /\
    h3_JperKg ns' - h2_JperKg ns' =
    (0.5 * 0.05 * (Q_out ns' * 1000)) / mDot_E ns'.
Proof.
  destruct (improved_compound_factor table_CoolProp notebook_parameters [])
    as (ns & tr1 & Hb & _ & _ & _ &
        (ns' & tr2 & Hi & _ & _ & _ & _ & _ & _ & Hdrop & _));
    [simpl; lra | simpl; lra | discriminate |].
  exists ns, tr1, ns', tr2. repeat (split; [assumption |]); assumption.
Defined.

(** C3 on the notebook's namespace. *)
Lemma thrust_formula_witness :
  exists t tr,
    thrust table_CoolProp notebook_namespace [] = (inr t, tr) /\
    Thrust_N t = pynum_mul (mDot_Tot notebook_namespace) (V t).
Proof.
  destruct (thrust_formula table_CoolProp notebook_namespace [])
    as (t & tr & Ht & _ & _ & HF & _);
    [simpl; lra | discriminate |].
  exists t, tr. split; assumption.
Defined.

(** C4 on the notebook's literals. *)
Lemma isentropic_tank_state_witness :
  exists ns tr1 ns' tr2,
    baseline table_CoolProp notebook_parameters [] = (inr ns, tr1) /\
    improved table_CoolProp improved_fraction ns tr1 = (inr ns', tr2) /\
    isentropic_pumps table_CoolProp ns /\
    isentropic_pumps table_CoolProp ns'.
Proof.
  destruct (isentropic_tank_state table_CoolProp notebook_parameters
              improved_fraction [])
    as (ns & tr1 & Hb & _ & Hns & _ & (ns' & tr2 & Hi & _ & Hns' & _));
    [simpl; lra | simpl; lra | discriminate |].
  exists ns, tr1, ns', tr2. repeat (split; [assumption |]); assumption.
Defined.

(** C5 on the notebook's literals. *)
Lemma pump_work_literal_witness :
  exists ns tr1,
    baseline table_CoolProp notebook_parameters [] = (inr ns, tr1) /\
    work_EPump ns = (1 / mDot_E ns) * (h2_JperKg ns - h1_JperKg ns) /\
    work_OPump ns = (1 / mDot_O2 ns) * (h2_O2_JperKg ns - h1_O2_JperKg ns).
Proof.
  destruct (pump_work_literal table_CoolProp notebook_parameters
              improved_fraction [])
    as (ns & tr1 & Hb & HE & HO & _);
    [simpl; lra | simpl; lra | discriminate |].
  exists ns, tr1. repeat (split; [assumption |]); assumption.
Defined.

(** C6 on the notebook's literals. *)
Lemma wall_heat_rate_witness :
  exists ns tr1,
    baseline table_CoolProp notebook_parameters [] = (inr ns, tr1) /\
    Q_inWall ns = 87.890625 /\ Q_inWall_J ns = 87890.625.
Proof.
  destruct (wall_heat_rate table_CoolProp notebook_parameters [])
    as (ns & tr1 & Hb & _ & _ & _ & _ & Hnum);
    [simpl; lra | simpl; lra | discriminate |].
  destruct Hnum as (HW & HJ & _); [reflexivity | reflexivity |].
  exists ns, tr1. repeat (split; [assumption |]); assumption.
Defined.

(** C7 on the notebook's literals. *)
Lemma thrust_scenario_independent_witness :
  exists b tr i tr',
    run_baseline table_CoolProp notebook_parameters [] = (inr b, tr) /\
    run_improved table_CoolProp notebook_parameters improved_fraction []
    = (inr i, tr') /\
    snd i = snd b.
Proof.
  destruct (thrust_scenario_independent table_CoolProp notebook_parameters
              improved_fraction [])
    as (b & tr & Hb & (i & tr' & Hi & _ & _ & E));
    [simpl; lra | simpl; lra | simpl; lra | discriminate |].
  exists b, tr, i, tr'. repeat (split; [assumption |]); assumption.
Defined.

(** C10 on the notebook's namespace. *)
Lemma exhaust_value_is_temperature_witness :
  exists t tr,
    thrust table_CoolProp notebook_namespace [] = (inr t, tr) /\
    h3_gas t = 778.4.
Proof.
  destruct (exhaust_value_is_temperature table_CoolProp notebook_namespace [])
    as (t & tr & Ht & _ & H3 & _);
    [simpl; lra | exact table_CoolProp_returns_requested_input |].
  exists t, tr. split; assumption.
Defined.

(** C8 on the notebook's namespace. *)
Lemma thrust_sign_witness :
  exists t tr,
    thrust table_CoolProp notebook_namespace [] = (inr t, tr) /\
    (h3_gas t <= h2_gas t ->
     exists v F, V t = PyFloat v /\ Thrust_N t = PyFloat F /\
                 0 <= v /\ 0 <= F).
Proof.
  destruct (thrust_sign table_CoolProp notebook_namespace [])
    as (t & tr & Ht & Hpos & _);
    [simpl; lra | discriminate |].
  exists t, tr. split; assumption.
Defined.

(** C8 fails as stated. On valid parameters (positive mass flow rates, a
    fraction of 0.05) and the table of reference enthalpies, the run of the
    baseline and thrust cells completes with [h2_gas] below [h3_gas]: no
    exception is raised, and [V] and [Thrust_N] are complex. *)
Lemma negative_radicand_raises_nothing :
  0 < mass_flow_fuel starved_parameters /\
  0 < mass_flow_ox starved_parameters /\
  0 <= wall_fraction starved_parameters <= 1 /\
  exists ns t tr,
    run_baseline reference_CoolProp starved_parameters [] = (inr (ns, t), tr) /\
    h2_gas t < h3_gas t /\
    V t = PyComplex 0 (sqrt (2 * (h3_gas t - h2_gas t))) /\
    exists re im, Thrust_N t = PyComplex re im.
Proof.
  split; [simpl; lra |]. split; [simpl; lra |]. split; [simpl; lra |].
  unfold run_baseline, baseline, thrust. cbv zeta. eval_parameters.
  eexists. eexists. eexists. split.
  { repeat eval_step. unfold ret. reflexivity. }
  cbn [h2_gas h3_gas V Thrust_N].
  assert (H : (0 * 1 + 0 * 0.00001) / (1 + 0.00001) +
              0.00001 / 0.032 / 3 * 1350 * 1000 * 0.95 / (1 + 0.00001)
              < 973 * 0.8) by lra.
  split; [exact H |].
  rewrite pow_half_neg by lra.
  split.
  - apply PyComplex_ext; [reflexivity |]. apply f_equal. lra.
  - cbn [pynum_mul]. eexists. eexists. reflexivity.
Qed.

(** C9 on invalid parameters. *)
Lemma no_parameter_validation_witness :
  exists ns tr,
    baseline table_CoolProp invalid_parameters [] = (inr ns, tr) /\
    length tr = 12%nat.
Proof.
  destruct (no_parameter_validation table_CoolProp invalid_parameters [])
    as (Hrun & _ & _); [discriminate |].
  destruct Hrun as (ns & tr & Hb & Hlen); [simpl; lra | simpl; lra |].
  exists ns, tr. split; assumption.
Defined.

(** C9 fails as stated. With a negative oxidizer mass flow rate and a
    negative heat fraction the baseline cells raise nothing: they make their
    twelve lookups and bind the fuel states of the notebook, and an oxidizer
    pump work of the opposite sign. *)
Lemma invalid_parameters_accepted :
  mass_flow_ox invalid_parameters <= 0 /\
  wall_fraction invalid_parameters < 0 /\
  exists ns tr,
    baseline table_CoolProp invalid_parameters [] = (inr ns, tr) /\
    length tr = 12%nat /\
    mDot_O2 ns = -0.125 /\
    Q_inWall_J ns = 87890.625 /\
    h2_JperKg ns = -430969.17 /\
    work_OPump ns = -34610.82.
Proof.
  split; [simpl; lra |]. split; [simpl; lra |].
  unfold baseline. cbv zeta. eval_parameters.
  eexists. eexists. split.
  { repeat eval_step. unfold ret. reflexivity. }
  cbn [mDot_O2 Q_inWall_J h2_JperKg work_OPump].
  split; [reflexivity |].
  repeat split; lra.
Qed.

(** ** What the cells may raise *)

Section Exceptions.

Variable CoolProp : query -> option R.

Lemma raises_only_ret (Z : Prop) {A : Type} (a : A) :
  raises_only CoolProp Z (ret a).
Proof.
  intros tr0 r tr H. unfold ret in H. inversion H; subst.
  exists []. split; [symmetry; apply app_nil_r | constructor].
Qed.

Lemma raises_only_div (Z : Prop) a b :
  (b = 0 -> Z) -> raises_only CoolProp Z (div a b).
Proof.
  intros HZ tr0 r tr H. unfold div, raise, ret in H.
  destruct (Req_dec_T b 0) as [E | N]; injection H as <- <-;
    exists []; (split; [symmetry; apply app_nil_r |]).
  - split; [exact (HZ E) | constructor].
  - constructor.
Qed.

Lemma raises_only_pynum_div (Z : Prop) v b :
  (b = 0 -> Z) -> raises_only CoolProp Z (pynum_div v b).
Proof.
  intros HZ tr0 r tr H. unfold pynum_div, raise, ret in H.
  destruct (Req_dec_T b 0) as [E | N].
  - injection H as <- <-. exists [].
    split; [symmetry; apply app_nil_r | split; [exact (HZ E) | constructor]].
  - destruct v; injection H as <- <-; exists [];
      (split; [symmetry; apply app_nil_r | constructor]).
Qed.

Lemma raises_only_PropsSI (Z : Prop) o n1 v1 n2 v2 f :
  raises_only CoolProp Z (PropsSI CoolProp o n1 v1 n2 v2 f).
Proof.
  intros tr0 r tr H. unfold PropsSI in H. cbv zeta in H.
  destruct (CoolProp (Query o n1 v1 n2 v2 f)) as [v |] eqn:E;
    inversion H; subst; exists [Query o n1 v1 n2 v2 f];
    (split; [reflexivity |]).
  - constructor; [| constructor]. unfold answered. rewrite E. discriminate.
  - split; [exact E |]. exists []. split; [reflexivity | constructor].
Qed.

(** Sequencing: the continuation is only run on a value the first
    computation has returned. *)
Lemma raises_only_bind (Z : Prop) {A B : Type} (c : Exec A) (k : A -> Exec B) :
  raises_only CoolProp Z c ->
  (forall a tr0 tr, c tr0 = (inr a, tr) -> raises_only CoolProp Z (k a)) ->
  raises_only CoolProp Z (bind c k).
Proof.
  intros Hc Hk tr0 r tr H. unfold bind in H.
  destruct (c tr0) as [[e | a] tr1] eqn:Ec.
  - inversion H; subst. exact (Hc _ _ _ Ec).
  - destruct (Hc _ _ _ Ec) as (l1 & -> & Hl1).
    destruct (Hk a _ _ Ec _ _ _ H) as (l2 & -> & Hl2).
    exists (l1 ++ l2). split; [symmetry; apply app_assoc |].
    destruct r as [[| q] | b].
    + destruct Hl2 as (HZ & Hl2). split; [exact HZ |].
      apply Forall_app. split; assumption.
    + destruct Hl2 as (Hq & l' & -> & Hl').
      split; [exact Hq |]. exists (l1 ++ l').
      split; [apply app_assoc |]. apply Forall_app. split; assumption.
    + apply Forall_app. split; assumption.
Qed.

(** The steps of a cell, one after the other. *)
Ltac raises_steps :=
  repeat first
    [ apply raises_only_ret
    | apply raises_only_PropsSI
    | apply raises_only_div; intros ?; first [lra | tauto]
    | apply raises_only_pynum_div; intros ?; lra
    | apply raises_only_bind; [| intros ? ? ? ?] ].

Lemma baseline_raises_only p :
  raises_only CoolProp (mass_flow_fuel p = 0 \/ mass_flow_ox p = 0)
    (baseline CoolProp p).
Proof. unfold baseline. cbv zeta. raises_steps. Qed.

Lemma improved_raises_only frac ns :
  raises_only CoolProp (mDot_E ns = 0) (improved CoolProp frac ns).
Proof. unfold improved. cbv zeta. raises_steps. Qed.

Lemma thrust_raises_only ns :
  raises_only CoolProp (mDot_Tot ns = 0) (thrust CoolProp ns).
Proof. unfold thrust. cbv zeta. raises_steps. Qed.

Lemma raises_only_weaken (Z Z' : Prop) {A : Type} (c : Exec A) :
  (Z -> Z') -> raises_only CoolProp Z c -> raises_only CoolProp Z' c.
Proof.
  intros HZ Hc tr0 r tr H. destruct (Hc _ _ _ H) as (l & -> & Hl).
  exists l. split; [reflexivity |].
  destruct r as [[| q] | a]; try assumption.
  destruct Hl as (Hz & Hl). split; [exact (HZ Hz) | exact Hl].
Qed.

Lemma run_improved_raises_only p frac :
  raises_only CoolProp
    (mass_flow_fuel p = 0 \/ mass_flow_ox p = 0 \/
     mass_flow_fuel p + mass_flow_ox p = 0)
    (run_improved CoolProp p frac).
Proof.
  unfold run_improved.
  apply raises_only_bind.
  { apply (raises_only_weaken (mass_flow_fuel p = 0 \/ mass_flow_ox p = 0));
      [tauto | apply baseline_raises_only]. }
  intros ns tr0 tr1 Hb. apply baseline_inr in Hb.
  apply raises_only_bind.
  { apply (raises_only_weaken (mDot_E ns = 0));
      [| apply improved_raises_only].
    intros E. destruct (bp_mDot_E_nonzero _ _ _ _ _ Hb E). }
  intros ns' tr2 tr3 Hi. apply improved_inr in Hi.
  apply raises_only_bind; [| intros; apply raises_only_ret].
  apply (raises_only_weaken (mDot_Tot ns' = 0)); [| apply thrust_raises_only].
  rewrite (ip_mDot_Tot _ _ _ _ _ _ Hi), (bp_mDot_Tot _ _ _ _ _ Hb),
    (bp_mDot_E _ _ _ _ _ Hb), (bp_mDot_O2 _ _ _ _ _ Hb).
  tauto.
Qed.

(** X1. The exceptions of the notebook run in the order of its execution
    counts. A run that raises, raises either [ZeroDivisionError], and then a
    mass flow rate or their sum is zero, or [ValueError] for a query CoolProp
    does not answer; that query is the last one logged, every earlier lookup
    of the run was answered, and the log given at the start is kept. *)
Theorem notebook_exceptions (p : ScenarioParameters) (frac : R)
    (tr0 : list query) (e : exn) (tr : list query) :
  run_improved CoolProp p frac tr0 = (inl e, tr) ->
  (e = ZeroDivisionError /\
   (mass_flow_fuel p = 0 \/ mass_flow_ox p = 0 \/
    mass_flow_fuel p + mass_flow_ox p = 0) /\
   exists l, tr = tr0 ++ l /\ Forall (fun q => CoolProp q <> None) l) \/
  (exists q l, e = ValueError q /\ CoolProp q = None /\
     tr = tr0 ++ l ++ [q] /\ Forall (fun q' => CoolProp q' <> None) l).
Proof.
  intros H.
  destruct (run_improved_raises_only p frac _ _ _ H) as (l & -> & Hl).
  destruct e as [| q].
  - left. destruct Hl as (HZ & Hl).
    split; [reflexivity | split; [exact HZ |]].
    exists l. split; [reflexivity | exact Hl].
  - right. destruct Hl as (Hq & l' & -> & Hl').
    exists q, l'. repeat split; assumption.
Qed.

(** X2. The check printed by cell [6] is a lookup like the others. When
    CoolProp answers the first lookup and not the one at 300000 Pa and
    enthalpy 0, the run stops there with [ValueError], after two lookups and
    whatever the parameters, although no name is bound to the answer. *)
Theorem check_print_aborts (p : ScenarioParameters) (tr0 : list query) :
  CoolProp (Query "H" "P" (feed_pressure p) "Q" 0 "ethanol") <> None ->
  CoolProp (Query "T" "P" 300000 "H" 0 "ethanol") = None ->
  baseline CoolProp p tr0 =
  (inl (ValueError (Query "T" "P" 300000 "H" 0 "ethanol")),
   tr0 ++ [ Query "H" "P" (feed_pressure p) "Q" 0 "ethanol";
            Query "T" "P" 300000 "H" 0 "ethanol" ]).
Proof.
  intros H1 H2. unfold baseline. cbv zeta.
  rewrite (bind_ok _ _ _ _ _ (div_ok _ 0.032 _ ltac:(lra))). cbv beta.
  rewrite (bind_ok _ _ _ _ _ (div_ok _ 3 _ ltac:(lra))). cbv beta.
  destruct (CoolProp (Query "H" "P" (feed_pressure p) "Q" 0 "ethanol"))
    as [v |] eqn:E1; [| contradiction].
  rewrite (bind_ok _ _ _ _ _ (PropsSI_ok CoolProp _ _ _ _ _ _ _ _ E1)).
  assert (E : PropsSI CoolProp "T" "P" 300000 "H" 0 "ethanol"
                (tr0 ++ [Query "H" "P" (feed_pressure p) "Q" 0 "ethanol"])
              = (inl (ValueError (Query "T" "P" 300000 "H" 0 "ethanol")),
                 (tr0 ++ [Query "H" "P" (feed_pressure p) "Q" 0 "ethanol"])
                 ++ [Query "T" "P" 300000 "H" 0 "ethanol"])).
  { unfold PropsSI. cbv zeta. rewrite H2. reflexivity. }
  rewrite (bind_raise _ _ _ _ _ E). rewrite <- app_assoc. reflexivity.
Qed.

(** X3. After the baseline cells have completed, the improved cell never
    raises [ZeroDivisionError]: its two divisions are by [mDot_E], which the
    baseline cells have already divided by. *)
Theorem improved_never_divides_by_zero (p : ScenarioParameters) (frac : R)
    (tr0 : list query) (ns : Namespace) (tr1 tr : list query) :
  baseline CoolProp p tr0 = (inr ns, tr1) ->
  improved CoolProp frac ns tr1 <> (inl ZeroDivisionError, tr).
Proof.
  intros Hb Hi. apply baseline_inr in Hb.
  destruct (improved_raises_only frac ns _ _ _ Hi) as (_ & _ & E & _).
  exact (bp_mDot_E_nonzero _ _ _ _ _ Hb E).
Qed.

(** X4. Mass flow rates that cancel pass the baseline cells and stop the
    thrust cell at its first division: with answered lookups the run raises
    [ZeroDivisionError] on the log of the baseline cells, the exhaust query
    not being made. *)
Theorem cancelling_flows_stop_thrust (p : ScenarioParameters)
    (tr0 : list query) :
  mass_flow_fuel p <> 0 ->
  mass_flow_fuel p + mass_flow_ox p = 0 ->
  (forall q, CoolProp q <> None) ->
  exists ns tr,
    baseline CoolProp p tr0 = (inr ns, tr) /\
    run_baseline CoolProp p tr0 = (inl ZeroDivisionError, tr) /\
    length tr = (length tr0 + 12)%nat.
Proof.
  intros HE HT Htot.
  assert (HO : mass_flow_ox p <> 0) by lra.
  destruct (baseline_returns CoolProp p tr0 HE HO Htot) as (ns & tr & Hb & Pb).
  exists ns, tr. split; [exact Hb |]. split.
  - unfold run_baseline. rewrite (bind_ok _ _ _ _ _ Hb).
    apply bind_raise. unfold thrust. cbv zeta.
    apply bind_raise. apply div_zero.
    rewrite (bp_mDot_Tot _ _ _ _ _ Pb), (bp_mDot_E _ _ _ _ _ Pb),
      (bp_mDot_O2 _ _ _ _ _ Pb). exact HT.
  - rewrite (bp_log _ _ _ _ _ Pb), length_app. reflexivity.
Qed.

End Exceptions.

(** ** Heat accounting and the thrust cell's outputs *)

Section Accounting.

Variable CoolProp : query -> option R.

Lemma Q_out_value p tr0 ns tr :
  baseline_post CoolProp p tr0 ns tr -> Q_out ns = 14062.5 * mass_flow_ox p.
Proof.
  intros Pb.
  rewrite (bp_Q_out _ _ _ _ _ Pb), (bp_mDot_O2 _ _ _ _ _ Pb),
    (bp_mm_O2 _ _ _ _ _ Pb), (bp_Q_combustion _ _ _ _ _ Pb).
  lra.
Qed.

(** X5. The heat budget. The thrust cell keeps 0.95 of the combustion heat in
    the exhaust whatever the heat fraction: the wall heat [Q_inWall_J] of the
    baseline cells and the heat the exhaust gains add up to the combustion
    heat exactly when the fraction is 0.05. After the improved cell, the heat
    the fuel absorbs and the heat the exhaust gains add up to the share
    0.95 + 0.05 x fraction of the combustion heat. *)
Theorem heat_budget (p : ScenarioParameters) (frac : R) (tr0 : list query) :
  mass_flow_fuel p <> 0 -> mass_flow_ox p <> 0 ->
  mass_flow_fuel p + mass_flow_ox p <> 0 ->
  (forall q, CoolProp q <> None) ->
  returns (run_baseline CoolProp p) tr0 (fun b _ =>
    (Q_inWall_J (fst b) + (h2_gas (snd b) - h1_gas (snd b)) * mDot_Tot (fst b)
     = Q_out (fst b) * 1000 <-> wall_fraction p = 0.05)) /\
  returns (run_improved CoolProp p frac) tr0 (fun i _ =>
    Q_inWall_J (fst i) * 0.05 +
    (h2_gas (snd i) - h1_gas (snd i)) * mDot_Tot (fst i)
    = (0.95 + 0.05 * frac) * (Q_out (fst i) * 1000)).
Proof.
  intros HE HO HT Htot. split.
  - destruct (run_baseline_returns CoolProp p tr0 HE HO HT Htot)
      as (ns & t & tr & Hb).
    exists (ns, t), tr. split; [exact Hb |]. cbn [fst snd].
    destruct (run_baseline_inr CoolProp _ _ _ _ _ Hb) as (tr1 & Pb & Pt).
    pose proof (Q_out_value _ _ _ _ Pb) as HQ.
    pose proof (tp_mDot_Tot_nonzero _ _ _ _ _ Pt) as HT'.
    assert (Hex : (h2_gas t - h1_gas t) * mDot_Tot ns = Q_out ns * 1000 * 0.95).
    { rewrite (tp_h2_gas _ _ _ _ _ Pt). field. exact HT'. }
    rewrite Hex, (bp_Q_inWall_J _ _ _ _ _ Pb), (bp_Q_inWall _ _ _ _ _ Pb), HQ.
    split; intros H; nra.
  - destruct (run_improved_returns CoolProp p frac tr0 HE HO HT Htot)
      as (ns' & t & tr & Hi).
    exists (ns', t), tr. split; [exact Hi |]. cbn [fst snd].
    destruct (run_improved_inr CoolProp _ _ _ _ _ _ Hi)
      as (ns & tr1 & tr2 & Pb & Pi & Pt).
    pose proof (tp_mDot_Tot_nonzero _ _ _ _ _ Pt) as HT'.
    assert (Hex : (h2_gas t - h1_gas t) * mDot_Tot ns' = Q_out ns' * 1000 * 0.95).
    { rewrite (tp_h2_gas _ _ _ _ _ Pt). field. exact HT'. }
    rewrite Hex, (ip_Q_inWall_J _ _ _ _ _ _ Pi), (ip_Q_inWall _ _ _ _ _ _ Pi),
      (ip_Q_out _ _ _ _ _ _ Pi).
    lra.
Qed.

(** X6. The improved cell against the baseline cells. The enthalpy drop of
    the fuel after the improved cell, times the baseline fraction, is the
    baseline drop times 0.05 times the improved fraction. With the notebook's
    0.05 and 0.5 the drop is halved: the enthalpy before the heat exchanger
    becomes the mean of its baseline value and the injector enthalpy. *)
Theorem improved_drop_ratio (p : ScenarioParameters) (frac : R)
    (tr0 : list query) :
  mass_flow_fuel p <> 0 -> mass_flow_ox p <> 0 ->
  (forall q, CoolProp q <> None) ->
  returns (baseline CoolProp p) tr0 (fun ns tr1 =>
    returns (improved CoolProp frac ns) tr1 (fun ns' _ =>
      (h3_JperKg ns' - h2_JperKg ns') * wall_fraction p
      = frac * 0.05 * (h3_JperKg ns - h2_JperKg ns) /\
      (wall_fraction p = 0.05 -> frac = 0.5 ->
       h2_JperKg ns' = (h2_JperKg ns + h3_JperKg ns) / 2))).
Proof.
  intros HE HO Htot.
  destruct (baseline_returns CoolProp p tr0 HE HO Htot) as (ns & tr1 & Hb & Pb).
  exists ns, tr1. split; [exact Hb |].
  pose proof (bp_mDot_E_nonzero _ _ _ _ _ Pb) as HE'.
  destruct (improved_returns CoolProp frac ns tr1 HE' Htot)
    as (ns' & tr2 & Hi & Pi).
  exists ns', tr2. split; [exact Hi |].
  assert (Hd : h3_JperKg ns - h2_JperKg ns
               = Q_out ns * wall_fraction p * 1000 / mDot_E ns).
  { rewrite (bp_h2 _ _ _ _ _ Pb), (bp_Q_inWall_J _ _ _ _ _ Pb),
      (bp_Q_inWall _ _ _ _ _ Pb). lra. }
  assert (Hd' : h3_JperKg ns' - h2_JperKg ns'
                = Q_out ns * frac * 1000 * 0.05 / mDot_E ns).
  { rewrite (ip_h2 _ _ _ _ _ _ Pi), (ip_Q_inWall_J _ _ _ _ _ _ Pi),
      (ip_Q_inWall _ _ _ _ _ _ Pi), (ip_h3 _ _ _ _ _ _ Pi). lra. }
  assert (E : (h3_JperKg ns' - h2_JperKg ns') * wall_fraction p
              = frac * 0.05 * (h3_JperKg ns - h2_JperKg ns)).
  { rewrite Hd, Hd'. field. exact HE'. }
  split; [exact E |].
  intros Hw Hf. rewrite Hw, Hf, (ip_h3 _ _ _ _ _ _ Pi) in E. lra.
Qed.

(** X7. The enthalpy before the heat exchanger against the fraction. For
    positive mass flow rates the improved cell binds an enthalpy that does not
    exceed the injector enthalpy when the fraction is not negative, that is
    the injector enthalpy itself for the fraction 0, and that does not
    increase when the fraction does. *)
Theorem inlet_enthalpy_monotone (p : ScenarioParameters) (f1 f2 : R)
    (tr0 : list query) :
  0 < mass_flow_fuel p -> 0 < mass_flow_ox p ->
  (forall q, CoolProp q <> None) ->
  0 <= f1 <= f2 ->
  returns (baseline CoolProp p) tr0 (fun ns tr1 =>
    returns (improved CoolProp f1 ns) tr1 (fun n1 _ =>
      returns (improved CoolProp f2 ns) tr1 (fun n2 _ =>
        h2_JperKg n2 <= h2_JperKg n1 <= h3_JperKg ns /\
        (f1 = 0 -> h2_JperKg n1 = h3_JperKg ns)))).
Proof.
  intros HE HO Htot Hf.
  destruct (baseline_returns CoolProp p tr0) as (ns & tr1 & Hb & Pb);
    [lra | lra | exact Htot |].
  exists ns, tr1. split; [exact Hb |].
  pose proof (bp_mDot_E_nonzero _ _ _ _ _ Pb) as HE'.
  destruct (improved_returns CoolProp f1 ns tr1 HE' Htot)
    as (n1 & tr2 & H1 & P1).
  destruct (improved_returns CoolProp f2 ns tr1 HE' Htot)
    as (n2 & tr3 & H2 & P2).
  exists n1, tr2. split; [exact H1 |].
  exists n2, tr3. split; [exact H2 |].
  pose proof (Q_out_value _ _ _ _ Pb) as HQ.
  pose proof (bp_mDot_E _ _ _ _ _ Pb) as HmE.
  assert (Hc : 0 <= Q_out ns * 1000 * 0.05 / mDot_E ns).
  { apply Rmult_le_pos; [rewrite HQ; lra |].
    apply Rlt_le, Rinv_0_lt_compat. rewrite HmE. exact HE. }
  assert (E1 : h2_JperKg n1
               = h3_JperKg ns - f1 * (Q_out ns * 1000 * 0.05 / mDot_E ns)).
  { rewrite (ip_h2 _ _ _ _ _ _ P1), (ip_Q_inWall_J _ _ _ _ _ _ P1),
      (ip_Q_inWall _ _ _ _ _ _ P1). field. exact HE'. }
  assert (E2 : h2_JperKg n2
               = h3_JperKg ns - f2 * (Q_out ns * 1000 * 0.05 / mDot_E ns)).
  { rewrite (ip_h2 _ _ _ _ _ _ P2), (ip_Q_inWall_J _ _ _ _ _ _ P2),
      (ip_Q_inWall _ _ _ _ _ _ P2). field. exact HE'. }
  rewrite E1, E2.
  set (c := Q_out ns * 1000 * 0.05 / mDot_E ns) in *.
  split; [split; nra | intros ->; lra].
Qed.

(** X8. The combustion heat against the oxidizer flow. [Q_out] is 14062.5
    times the oxidizer mass flow rate and depends on no other parameter, so it
    does not decrease when the oxidizer flow increases; and for a
    non-negative oxidizer flow and a fraction between 0 and 1 the wall heat
    lies between 0 and the combustion heat. *)
Theorem combustion_heat_monotone (p p' : ScenarioParameters)
    (tr0 : list query) :
  mass_flow_fuel p <> 0 -> mass_flow_ox p <> 0 ->
  mass_flow_fuel p' <> 0 -> mass_flow_ox p' <> 0 ->
  (forall q, CoolProp q <> None) ->
  returns (baseline CoolProp p) tr0 (fun ns _ =>
    returns (baseline CoolProp p') tr0 (fun ns' _ =>
      Q_out ns = 14062.5 * mass_flow_ox p /\
      (mass_flow_ox p <= mass_flow_ox p' -> Q_out ns <= Q_out ns') /\
      (0 <= mass_flow_ox p -> 0 <= wall_fraction p <= 1 ->
       0 <= Q_inWall ns <= Q_out ns))).
Proof.
  intros HE HO HE' HO' Htot.
  destruct (baseline_returns CoolProp p tr0 HE HO Htot) as (ns & tr & Hb & Pb).
  destruct (baseline_returns CoolProp p' tr0 HE' HO' Htot)
    as (ns' & tr' & Hb' & Pb').
  exists ns, tr. split; [exact Hb |].
  exists ns', tr'. split; [exact Hb' |].
  pose proof (Q_out_value _ _ _ _ Pb) as HQ.
  pose proof (Q_out_value _ _ _ _ Pb') as HQ'.
  split; [exact HQ |]. split.
  - intros Hle. rewrite HQ, HQ'. lra.
  - intros H0 Hf. rewrite (bp_Q_inWall _ _ _ _ _ Pb), HQ. split; nra.
Qed.

(** X9. The Mach number of the thrust cell is the velocity over the
    constant 343. When [h2_gas] is at least [h3_gas] both are floats, the Mach
    number exceeds 1 exactly when the velocity exceeds 343, and the thrust is
    the total mass flow rate times 343 times the Mach number; when [h2_gas] is
    below, the Mach number is complex as the velocity is, with real part 0. *)
Theorem mach_number (ns : Namespace) (tr0 : list query) :
  mDot_Tot ns <> 0 ->
  CoolProp exhaust_query <> None ->
  returns (thrust CoolProp ns) tr0 (fun t _ =>
    (h3_gas t <= h2_gas t ->
     exists v m, V t = PyFloat v /\ M t = PyFloat m /\ v = 343 * m /\
       (1 < m <-> 343 < v) /\
       Thrust_N t = PyFloat (mDot_Tot ns * (343 * m))) /\
    (h2_gas t < h3_gas t ->
     exists im, V t = PyComplex 0 im /\ M t = PyComplex 0 (im / 343))).
Proof.
  intros HT Hq.
  destruct (thrust_returns CoolProp ns tr0 HT Hq) as (t & tr & Ht & Pt).
  exists t, tr. split; [exact Ht |]. split.
  - intros Hle.
    assert (HV : V t = PyFloat (sqrt (2 * (h2_gas t - h3_gas t)))).
    { rewrite (tp_V _ _ _ _ _ Pt). apply pow_half_nonneg. lra. }
    set (v := sqrt (2 * (h2_gas t - h3_gas t))) in *.
    exists v, (v / 343).
    split; [exact HV |].
    split; [rewrite (tp_M _ _ _ _ _ Pt), HV; reflexivity |].
    split; [lra |]. split; [split; intros; lra |].
    rewrite (tp_Thrust_N _ _ _ _ _ Pt), HV. unfold pynum_mul.
    apply f_equal. lra.
  - intros Hlt.
    assert (HV : V t = PyComplex 0 (sqrt (- (2 * (h2_gas t - h3_gas t))))).
    { rewrite (tp_V _ _ _ _ _ Pt). apply pow_half_neg. lra. }
    exists (sqrt (- (2 * (h2_gas t - h3_gas t)))).
    split; [exact HV |].
    rewrite (tp_M _ _ _ _ _ Pt), HV.
    apply PyComplex_ext; [lra | reflexivity].
Qed.

End Accounting.

(** ** Scaling the flows, and cells run again *)

Section Reruns.

Variable CoolProp : query -> option R.

Lemma same_answer (q : query) (a b : R) :
  CoolProp q = Some a -> CoolProp q = Some b -> a = b.
Proof. intros Ha Hb. rewrite Ha in Hb. injection Hb as Hb. exact Hb. Qed.

(** X10. Scaling both mass flow rates by the same non-zero factor [k] leaves
    the looked-up states, the enthalpy before the heat exchanger and the
    exhaust velocity as they were, multiplies the thrust by [k], and divides
    both pump works by [k]: the figure printed as pump work falls when the
    flow rises. *)
Theorem flow_scaling (p : ScenarioParameters) (k : R) (tr0 : list query) :
  k <> 0 ->
  mass_flow_fuel p <> 0 -> mass_flow_ox p <> 0 ->
  mass_flow_fuel p + mass_flow_ox p <> 0 ->
  (forall q, CoolProp q <> None) ->
  returns (run_baseline CoolProp p) tr0 (fun b _ =>
    returns (run_baseline CoolProp (scale_flows k p)) tr0 (fun b' _ =>
      h2_JperKg (fst b') = h2_JperKg (fst b) /\
      t2_K (fst b') = t2_K (fst b) /\
      t1_K (fst b') = t1_K (fst b) /\
      work_EPump (fst b') = work_EPump (fst b) / k /\
      work_OPump (fst b') = work_OPump (fst b) / k /\
      V (snd b') = V (snd b) /\
      Thrust_N (snd b') = pynum_mul k (Thrust_N (snd b)))).
Proof.
  intros Hk HE HO HT Htot.
  destruct (run_baseline_returns CoolProp p tr0 HE HO HT Htot)
    as (ns & t & tr & Hb).
  destruct (run_baseline_returns CoolProp (scale_flows k p) tr0)
    as (ns' & t' & tr' & Hb');
    [cbn; nra | cbn; nra | cbn; nra | exact Htot |].
  exists (ns, t), tr. split; [exact Hb |].
  exists (ns', t'), tr'. split; [exact Hb' |]. cbn [fst snd].
  destruct (run_baseline_inr CoolProp _ _ _ _ _ Hb) as (tr1 & Pb & Pt).
  destruct (run_baseline_inr CoolProp _ _ _ _ _ Hb') as (tr1' & Pb' & Pt').
  pose proof (bp_mDot_E _ _ _ _ _ Pb) as mE.
  pose proof (bp_mDot_E _ _ _ _ _ Pb') as mE'. cbn in mE'.
  pose proof (bp_mDot_O2 _ _ _ _ _ Pb) as mO.
  pose proof (bp_mDot_O2 _ _ _ _ _ Pb') as mO'. cbn in mO'.
  pose proof (bp_mDot_Tot _ _ _ _ _ Pb) as mT.
  pose proof (bp_mDot_Tot _ _ _ _ _ Pb') as mT'.
  pose proof (Q_out_value _ _ _ _ _ Pb) as HQ.
  pose proof (Q_out_value _ _ _ _ _ Pb') as HQ'. cbn in HQ'.
  assert (Ep3 : p3_Pa ns' = p3_Pa ns).
  { rewrite (bp_p3_Pa _ _ _ _ _ Pb), (bp_p3_Pa _ _ _ _ _ Pb'). reflexivity. }
  assert (Ep1 : p1_Pa ns' = p1_Pa ns).
  { rewrite (bp_p1_Pa _ _ _ _ _ Pb), (bp_p1_Pa _ _ _ _ _ Pb'). reflexivity. }
  assert (Ex3 : x3 ns' = x3 ns).
  { rewrite (bp_x3 _ _ _ _ _ Pb), (bp_x3 _ _ _ _ _ Pb'). reflexivity. }
  assert (Efl : fluid ns' = fluid ns).
  { rewrite (bp_fluid _ _ _ _ _ Pb), (bp_fluid _ _ _ _ _ Pb'). reflexivity. }
  assert (Eox : oxidizer ns' = oxidizer ns).
  { rewrite (bp_oxidizer _ _ _ _ _ Pb), (bp_oxidizer _ _ _ _ _ Pb').
    reflexivity. }
  assert (Eh3 : h3_JperKg ns' = h3_JperKg ns).
  { pose proof (bp_h3 _ _ _ _ _ Pb') as A. rewrite Ep3, Ex3, Efl in A.
    exact (same_answer _ _ _ A (bp_h3 _ _ _ _ _ Pb)). }
  assert (Eh2 : h2_JperKg ns' = h2_JperKg ns).
  { rewrite (bp_h2 _ _ _ _ _ Pb'), (bp_h2 _ _ _ _ _ Pb), Eh3,
      (bp_Q_inWall_J _ _ _ _ _ Pb'), (bp_Q_inWall_J _ _ _ _ _ Pb),
      (bp_Q_inWall _ _ _ _ _ Pb'), (bp_Q_inWall _ _ _ _ _ Pb),
      HQ, HQ', mE, mE'.
    cbn [wall_fraction scale_flows]. field. split; assumption. }
  assert (Es2 : s2_JperKgK ns' = s2_JperKgK ns).
  { pose proof (bp_s2 _ _ _ _ _ Pb') as A. rewrite Ep3, Eh2, Efl in A.
    exact (same_answer _ _ _ A (bp_s2 _ _ _ _ _ Pb)). }
  assert (Et2 : t2_K ns' = t2_K ns).
  { pose proof (bp_t2 _ _ _ _ _ Pb') as A. rewrite Ep3, Eh2, Efl in A.
    exact (same_answer _ _ _ A (bp_t2 _ _ _ _ _ Pb)). }
  assert (Et1 : t1_K ns' = t1_K ns).
  { pose proof (bp_t1 _ _ _ _ _ Pb') as A. rewrite Ep1, Es2, Efl in A.
    exact (same_answer _ _ _ A (bp_t1 _ _ _ _ _ Pb)). }
  assert (Eh1 : h1_JperKg ns' = h1_JperKg ns).
  { pose proof (bp_h1 _ _ _ _ _ Pb') as A. rewrite Ep1, Es2, Efl in A.
    exact (same_answer _ _ _ A (bp_h1 _ _ _ _ _ Pb)). }
  assert (Eh2O : h2_O2_JperKg ns' = h2_O2_JperKg ns).
  { pose proof (bp_h2_O2 _ _ _ _ _ Pb') as A. rewrite Ep3, Eox in A.
    exact (same_answer _ _ _ A (bp_h2_O2 _ _ _ _ _ Pb)). }
  assert (Es2O : s2_O2_JperKgK ns' = s2_O2_JperKgK ns).
  { pose proof (bp_s2_O2 _ _ _ _ _ Pb') as A. rewrite Ep3, Eox in A.
    exact (same_answer _ _ _ A (bp_s2_O2 _ _ _ _ _ Pb)). }
  assert (Eh1O : h1_O2_JperKg ns' = h1_O2_JperKg ns).
  { pose proof (bp_h1_O2 _ _ _ _ _ Pb') as A. rewrite Ep1, Es2O, Eox in A.
    exact (same_answer _ _ _ A (bp_h1_O2 _ _ _ _ _ Pb)). }
  assert (Eh3g : h3_gas t' = h3_gas t).
  { exact (same_answer _ _ _ (tp_h3_gas _ _ _ _ _ Pt')
             (tp_h3_gas _ _ _ _ _ Pt)). }
  assert (HT' : mDot_Tot ns <> 0) by (rewrite mT, mE, mO; exact HT).
  assert (HkT : k * mass_flow_fuel p + k * mass_flow_ox p <> 0).
  { replace (k * mass_flow_fuel p + k * mass_flow_ox p)
      with (k * (mass_flow_fuel p + mass_flow_ox p)) by ring.
    apply Rmult_integral_contrapositive_currified; assumption. }
  assert (Eh2g : h2_gas t' = h2_gas t).
  { rewrite (tp_h2_gas _ _ _ _ _ Pt'), (tp_h2_gas _ _ _ _ _ Pt),
      (tp_h1_gas _ _ _ _ _ Pt'), (tp_h1_gas _ _ _ _ _ Pt),
      Eh3, Eh2O, HQ, HQ', mT', mE', mO'.
    rewrite mT, mE, mO. field. split; assumption. }
  assert (EV : V t' = V t).
  { rewrite (tp_V _ _ _ _ _ Pt'), (tp_V _ _ _ _ _ Pt), Eh2g, Eh3g.
    reflexivity. }
  repeat (split; [assumption |]).
  split; [| split; [| split; [exact EV |]]].
  - rewrite (bp_work_EPump _ _ _ _ _ Pb'), (bp_work_EPump _ _ _ _ _ Pb),
      Eh2, Eh1, mE, mE'. field. split; assumption.
  - rewrite (bp_work_OPump _ _ _ _ _ Pb'), (bp_work_OPump _ _ _ _ _ Pb),
      Eh2O, Eh1O, mO, mO'. field. split; assumption.
  - rewrite (tp_Thrust_N _ _ _ _ _ Pt'), (tp_Thrust_N _ _ _ _ _ Pt), EV,
      mT', mE', mO', mT, mE, mO.
    destruct (V t) as [x | re im]; unfold pynum_mul.
    + apply f_equal. ring.
    + apply PyComplex_ext; ring.
Qed.

(** The improved cell reads the names it does not rebind: on two namespaces
    that agree on them it returns the same namespace or raises the same
    exception, whatever the log. *)
Lemma improved_reads frac ns ns1 tr tr1 :
  improved_post CoolProp frac ns tr ns1 tr1 ->
  forall f tr' tr'',
    fst (improved CoolProp f ns1 tr') = fst (improved CoolProp f ns tr'').
Proof.
  intros P f tr' tr''. unfold improved. cbv zeta.
  rewrite (ip_mDot_E _ _ _ _ _ _ P), (ip_mDot_O2 _ _ _ _ _ _ P),
    (ip_mDot_Tot _ _ _ _ _ _ P), (ip_mm_E _ _ _ _ _ _ P),
    (ip_mm_O2 _ _ _ _ _ _ P), (ip_Q_combustion _ _ _ _ _ _ P),
    (ip_Q_out _ _ _ _ _ _ P), (ip_p3_Pa _ _ _ _ _ _ P),
    (ip_x3 _ _ _ _ _ _ P), (ip_fluid _ _ _ _ _ _ P),
    (ip_oxidizer _ _ _ _ _ _ P), (ip_h3 _ _ _ _ _ _ P),
    (ip_t3 _ _ _ _ _ _ P), (ip_p1_Pa _ _ _ _ _ _ P),
    (ip_h2_O2 _ _ _ _ _ _ P), (ip_s2_O2 _ _ _ _ _ _ P),
    (ip_h1_O2 _ _ _ _ _ _ P), (ip_T1_O2 _ _ _ _ _ _ P),
    (ip_work_OPump _ _ _ _ _ _ P).
  unfold bind, div, PropsSI, ret, raise. cbv zeta.
  destruct (Req_dec_T (mDot_E ns) 0); [reflexivity |].
  repeat (match goal with
          | |- context [match CoolProp ?q with _ => _ end] =>
              destruct (CoolProp q)
          end; [| reflexivity]).
  reflexivity.
Qed.

(** X11. The improved cell run a second time gives what it gives when run
    once: whatever fraction the first run used, a second run with the fraction
    [f] binds the namespace, or raises the exception, of a single run with
    [f] on the namespace of the baseline cells. Running the cell again with
    the same fraction changes nothing. *)
Theorem improved_overwrites (frac f : R) (ns ns1 : Namespace)
    (tr0 tr1 : list query) :
  improved CoolProp frac ns tr0 = (inr ns1, tr1) ->
  fst (improved CoolProp f ns1 tr1) = fst (improved CoolProp f ns tr0) /\
  fst (improved CoolProp frac ns1 tr1) = inr ns1.
Proof.
  intros H. pose proof (improved_inr CoolProp _ _ _ _ _ H) as P.
  split.
  - apply (improved_reads _ _ _ _ _ P).
  - rewrite (improved_reads _ _ _ _ _ P frac tr1 tr0), H. reflexivity.
Qed.

(** X12. Cell [7] run again right after the baseline cells binds what was
    bound: the namespace is unchanged. *)
Theorem cell7_again_after_baseline (p : ScenarioParameters)
    (tr0 : list query) (ns : Namespace) (tr1 : list query) :
  baseline CoolProp p tr0 = (inr ns, tr1) ->
  fst (cell7 CoolProp ns tr1) = inr ns.
Proof.
  intros H. pose proof (baseline_inr CoolProp _ _ _ _ H) as P.
  unfold cell7. cbv zeta.
  rewrite (bind_ok _ _ _ _ _ (PropsSI_ok CoolProp _ _ _ _ _ _ _ _
                                (bp_h3 _ _ _ _ _ P))).
  rewrite (bind_ok _ _ _ _ _ (PropsSI_ok CoolProp _ _ _ _ _ _ _ _
                                (bp_t3 _ _ _ _ _ P))).
  rewrite (bind_ok _ _ _ _ _ (div_ok _ _ _ (bp_mDot_E_nonzero _ _ _ _ _ P))).
  rewrite <- (bp_h2 _ _ _ _ _ P).
  rewrite (bind_ok _ _ _ _ _ (PropsSI_ok CoolProp _ _ _ _ _ _ _ _
                                (bp_s2 _ _ _ _ _ P))).
  rewrite (bind_ok _ _ _ _ _ (PropsSI_ok CoolProp _ _ _ _ _ _ _ _
                                (bp_t2 _ _ _ _ _ P))).
  unfold ret. cbn [fst]. apply inr_ext.
  apply Namespace_ext; reflexivity.
Qed.

(** X13. Cell [7] run again after the improved cell does not bring the
    baseline back: it divides the rebound [Q_inWall_J] by [mDot_E] without
    the factor 0.05, so the enthalpy drop it binds is twenty times the drop
    of the improved cell, and the enthalpy before the heat exchanger is the
    baseline one only when the improved cell used the baseline fraction. *)
Theorem cell7_again_after_improved (p : ScenarioParameters) (frac : R)
    (tr0 : list query) :
  mass_flow_fuel p <> 0 -> mass_flow_ox p <> 0 ->
  (forall q, CoolProp q <> None) ->
  returns (baseline CoolProp p) tr0 (fun ns tr1 =>
    returns (improved CoolProp frac ns) tr1 (fun ns' tr2 =>
      returns (cell7 CoolProp ns') tr2 (fun ns'' _ =>
        h3_JperKg ns'' - h2_JperKg ns''
        = 20 * (h3_JperKg ns' - h2_JperKg ns') /\
        (h2_JperKg ns'' = h2_JperKg ns <-> frac = wall_fraction p)))).
Proof.
  intros HE HO Htot.
  destruct (baseline_returns CoolProp p tr0 HE HO Htot) as (ns & tr1 & Hb & Pb).
  exists ns, tr1. split; [exact Hb |].
  pose proof (bp_mDot_E_nonzero _ _ _ _ _ Pb) as HE'.
  destruct (improved_returns CoolProp frac ns tr1 HE' Htot)
    as (ns' & tr2 & Hi & Pi).
  exists ns', tr2. split; [exact Hi |].
  assert (HE'' : mDot_E ns' <> 0) by (rewrite (ip_mDot_E _ _ _ _ _ _ Pi); exact HE').
  assert (exists ns'' tr3, cell7 CoolProp ns' tr2 = (inr ns'', tr3))
    as (ns'' & tr3 & Hc).
  { unfold cell7. cbv zeta. repeat run_step Htot.
    eexists. eexists. reflexivity. }
  exists ns'', tr3. split; [exact Hc |].
  unfold cell7 in Hc. cbv zeta in Hc. inv_run. subst.
  cbn [h3_JperKg h2_JperKg].
  match goal with
  | A : CoolProp (Query "Hmass" _ _ _ _ _) = Some ?a |- _ =>
      pose proof A as Hh3; rename a into h3''
  end.
  rewrite (ip_p3_Pa _ _ _ _ _ _ Pi), (ip_x3 _ _ _ _ _ _ Pi),
    (ip_fluid _ _ _ _ _ _ Pi) in Hh3.
  pose proof (same_answer _ _ _ Hh3 (bp_h3 _ _ _ _ _ Pb)) as E3.
  pose proof (Q_out_value _ _ _ _ _ Pb) as HQ.
  rewrite (ip_h3 _ _ _ _ _ _ Pi), (ip_h2 _ _ _ _ _ _ Pi),
    (ip_mDot_E _ _ _ _ _ _ Pi), E3.
  split; [lra |].
  rewrite (bp_h2 _ _ _ _ _ Pb), (ip_Q_inWall_J _ _ _ _ _ _ Pi),
    (ip_Q_inWall _ _ _ _ _ _ Pi), (bp_Q_inWall_J _ _ _ _ _ Pb),
    (bp_Q_inWall _ _ _ _ _ Pb).
  assert (Hc : Q_out ns * 1000 / mDot_E ns <> 0).
  { rewrite HQ. unfold Rdiv.
    apply Rmult_integral_contrapositive_currified;
      [lra | apply Rinv_neq_0_compat; exact HE']. }
  split.
  - intros Heq.
    assert (Hz : (Q_out ns * 1000 / mDot_E ns) * (frac - wall_fraction p) = 0).
    { apply (f_equal (fun x => - h3_JperKg ns + x)) in Heq. cbv beta in Heq.
      transitivity (- (- h3_JperKg ns +
                       (h3_JperKg ns - Q_out ns * frac * 1000 / mDot_E ns))
                    + (- h3_JperKg ns +
                       (h3_JperKg ns
                        - Q_out ns * wall_fraction p * 1000 / mDot_E ns))).
      - field. exact HE'.
      - rewrite Heq. ring. }
    apply Rmult_integral in Hz. destruct Hz as [Hz | Hz]; [contradiction | lra].
  - intros ->. reflexivity.
Qed.

End Reruns.

(** ** What the improved cell and the thrust cell do not depend on *)

Section Independence.

Variable CoolProp : query -> option R.

(** X14. The improved cell leaves the oxidizer alone. Its four lookups are
    all made for the fuel, and the oxidizer's injector and tank states and its
    pump work stay those of the baseline cells: the heat the oxidizer is meant
    to absorb in the improved design changes no bound value. *)
Theorem improved_ignores_oxidizer (p : ScenarioParameters) (frac : R)
    (tr0 : list query) :
  mass_flow_fuel p <> 0 -> mass_flow_ox p <> 0 ->
  (forall q, CoolProp q <> None) ->
  returns (baseline CoolProp p) tr0 (fun ns tr1 =>
    returns (improved CoolProp frac ns) tr1 (fun ns' tr2 =>
      (exists l, tr2 = tr1 ++ l /\ length l = 4%nat /\
                 Forall (fun q => q_fluid q = "ethanol") l) /\
      h2_O2_JperKg ns' = h2_O2_JperKg ns /\
      s2_O2_JperKgK ns' = s2_O2_JperKgK ns /\
      h1_O2_JperKg ns' = h1_O2_JperKg ns /\
      T1_O2_K ns' = T1_O2_K ns /\
      work_OPump ns' = work_OPump ns)).
Proof.
  intros HE HO Htot.
  destruct (baseline_returns CoolProp p tr0 HE HO Htot) as (ns & tr1 & Hb & Pb).
  exists ns, tr1. split; [exact Hb |].
  destruct (improved_returns CoolProp frac ns tr1
              (bp_mDot_E_nonzero _ _ _ _ _ Pb) Htot)
    as (ns' & tr2 & Hi & Pi).
  exists ns', tr2. split; [exact Hi |].
  split.
  - eexists. split; [apply (ip_log _ _ _ _ _ _ Pi) |].
    split; [reflexivity |].
    rewrite (bp_fluid _ _ _ _ _ Pb).
    repeat (constructor; [reflexivity |]). constructor.
  - repeat split; apply Pi.
Qed.

(** X15. The thrust does not depend on the cooling. Two runs with the same
    mass flow rates and feed pressure bind the same values in the thrust cell
    whatever their tank pressures and heat fractions: the exhaust keeps 0.95
    of the combustion heat in either. *)
Theorem thrust_ignores_cooling (p p' : ScenarioParameters)
    (tr0 : list query) :
  mass_flow_fuel p' = mass_flow_fuel p ->
  mass_flow_ox p' = mass_flow_ox p ->
  feed_pressure p' = feed_pressure p ->
  mass_flow_fuel p <> 0 -> mass_flow_ox p <> 0 ->
  mass_flow_fuel p + mass_flow_ox p <> 0 ->
  (forall q, CoolProp q <> None) ->
  returns (run_baseline CoolProp p) tr0 (fun b _ =>
    returns (run_baseline CoolProp p') tr0 (fun b' _ => snd b' = snd b)).
Proof.
  intros EE EO EP HE HO HT Htot.
  destruct (run_baseline_returns CoolProp p tr0 HE HO HT Htot)
    as (ns & t & tr & Hb).
  destruct (run_baseline_returns CoolProp p' tr0)
    as (ns' & t' & tr' & Hb');
    [rewrite EE; exact HE | rewrite EO; exact HO
    | rewrite EE, EO; exact HT | exact Htot |].
  exists (ns, t), tr. split; [exact Hb |].
  exists (ns', t'), tr'. split; [exact Hb' |]. cbn [snd].
  pose proof Hb as Rb. pose proof Hb' as Rb'.
  unfold run_baseline in Rb, Rb'.
  apply bind_inr in Rb. destruct Rb as (n1 & tr1 & B1 & Rb).
  apply bind_inr in Rb. destruct Rb as (t1 & tr2 & T1 & Rb).
  apply ret_inr in Rb. destruct Rb as (Rb & _). inversion Rb; subst n1 t1.
  apply bind_inr in Rb'. destruct Rb' as (n2 & tr3 & B2 & Rb').
  apply bind_inr in Rb'. destruct Rb' as (t2 & tr4 & T2 & Rb').
  apply ret_inr in Rb'. destruct Rb' as (Rb' & _). inversion Rb'; subst n2 t2.
  pose proof (baseline_inr CoolProp _ _ _ _ B1) as Pb.
  pose proof (baseline_inr CoolProp _ _ _ _ B2) as Pb'.
  assert (Ep3 : p3_Pa ns' = p3_Pa ns).
  { rewrite (bp_p3_Pa _ _ _ _ _ Pb), (bp_p3_Pa _ _ _ _ _ Pb'). exact EP. }
  assert (EmE : mDot_E ns' = mDot_E ns).
  { rewrite (bp_mDot_E _ _ _ _ _ Pb), (bp_mDot_E _ _ _ _ _ Pb'). exact EE. }
  assert (EmO : mDot_O2 ns' = mDot_O2 ns).
  { rewrite (bp_mDot_O2 _ _ _ _ _ Pb), (bp_mDot_O2 _ _ _ _ _ Pb'). exact EO. }
  assert (Eh3 : h3_JperKg ns' = h3_JperKg ns).
  { pose proof (bp_h3 _ _ _ _ _ Pb') as A.
    rewrite Ep3, (bp_x3 _ _ _ _ _ Pb'), (bp_fluid _ _ _ _ _ Pb') in A.
    pose proof (bp_h3 _ _ _ _ _ Pb) as B.
    rewrite (bp_x3 _ _ _ _ _ Pb), (bp_fluid _ _ _ _ _ Pb) in B.
    rewrite A in B. injection B as B. exact B. }
  assert (Eh2O : h2_O2_JperKg ns' = h2_O2_JperKg ns).
  { pose proof (bp_h2_O2 _ _ _ _ _ Pb') as A.
    rewrite Ep3, (bp_oxidizer _ _ _ _ _ Pb') in A.
    pose proof (bp_h2_O2 _ _ _ _ _ Pb) as B.
    rewrite (bp_oxidizer _ _ _ _ _ Pb) in B.
    rewrite A in B. injection B as B. exact B. }
  assert (EmT : mDot_Tot ns' = mDot_Tot ns).
  { rewrite (bp_mDot_Tot _ _ _ _ _ Pb), (bp_mDot_Tot _ _ _ _ _ Pb'), EmE, EmO.
    reflexivity. }
  assert (EQ : Q_out ns' = Q_out ns).
  { rewrite (bp_Q_out _ _ _ _ _ Pb), (bp_Q_out _ _ _ _ _ Pb'), EmO,
      (bp_mm_O2 _ _ _ _ _ Pb), (bp_mm_O2 _ _ _ _ _ Pb'),
      (bp_Q_combustion _ _ _ _ _ Pb), (bp_Q_combustion _ _ _ _ _ Pb').
    reflexivity. }
  pose proof (thrust_reads CoolProp ns ns' tr1 tr3 Eh3 EmE Eh2O EmO EmT EQ)
    as Hsame.
  rewrite T1, T2 in Hsame. cbn [fst] in Hsame.
  injection Hsame as Hsame. exact Hsame.
Qed.

End Independence.

(** ** The further statements on concrete runs *)

(** The whole notebook without fuel flow stops where the baseline cells do. *)
Example no_fuel_notebook_run :
  run_improved table_CoolProp no_fuel_parameters improved_fraction [] =
  (inl ZeroDivisionError,
   [ Query "H" "P" 1200000 "Q" 0 "ethanol";
     Query "T" "P" 300000 "H" 0 "ethanol";
     Query "Hmass" "P" 1200000 "Q" 0 "ethanol";
     Query "T" "P" 1200000 "Q" 0 "ethanol" ]).
Proof. unfold run_improved. apply bind_raise. exact no_fuel_run. Qed.

(** X1 on the run without fuel flow. *)
Lemma notebook_exceptions_witness :
  mass_flow_fuel no_fuel_parameters = 0 \/
  mass_flow_ox no_fuel_parameters = 0 \/
  mass_flow_fuel no_fuel_parameters + mass_flow_ox no_fuel_parameters = 0.
Proof.
  destruct (notebook_exceptions table_CoolProp no_fuel_parameters
              improved_fraction [] ZeroDivisionError _ no_fuel_notebook_run)
    as [(_ & HZ & _) | (q & l & E & _)]; [exact HZ | discriminate E].
Defined.

(** X2 on the notebook's literals, the check unanswered. *)
Lemma check_print_aborts_witness :
  baseline no_check_CoolProp notebook_parameters [] =
  (inl (ValueError (Query "T" "P" 300000 "H" 0 "ethanol")),
   [ Query "H" "P" 1200000 "Q" 0 "ethanol";
     Query "T" "P" 300000 "H" 0 "ethanol" ]).
Proof.
  apply (check_print_aborts no_check_CoolProp notebook_parameters []);
    [discriminate | reflexivity].
Defined.

(** X3 on the notebook's literals. *)
Lemma improved_never_divides_by_zero_witness :
  exists ns tr1,
    baseline table_CoolProp notebook_parameters [] = (inr ns, tr1) /\
    forall tr,
      improved table_CoolProp improved_fraction ns tr1
      <> (inl ZeroDivisionError, tr).
Proof.
  destruct (baseline_returns table_CoolProp notebook_parameters [])
    as (ns & tr1 & Hb & _); [simpl; lra | simpl; lra | discriminate |].
  exists ns, tr1. split; [exact Hb |]. intros tr.
  exact (improved_never_divides_by_zero table_CoolProp notebook_parameters
           improved_fraction [] ns tr1 tr Hb).
Defined.

(** X4 on flows of 0.125 and -0.125. *)
Lemma cancelling_flows_stop_thrust_witness :
  exists tr,
    run_baseline table_CoolProp opposite_flows_parameters [] =
    (inl ZeroDivisionError, tr) /\ length tr = 12%nat.
Proof.
  destruct (cancelling_flows_stop_thrust table_CoolProp
              opposite_flows_parameters [])
    as (ns & tr & _ & Hr & Hlen); [simpl; lra | simpl; lra | discriminate |].
  exists tr. split; assumption.
Defined.

(** X5 on the notebook's literals. *)
Lemma heat_budget_witness :
  exists b tr,
    run_baseline table_CoolProp notebook_parameters [] = (inr b, tr) /\
    Q_inWall_J (fst b) + (h2_gas (snd b) - h1_gas (snd b)) * mDot_Tot (fst b)
    = Q_out (fst b) * 1000.
Proof.
  destruct (heat_budget table_CoolProp notebook_parameters improved_fraction [])
    as ((b & tr & Hb & Hiff) & _);
    [simpl; lra | simpl; lra | simpl; lra | discriminate |].
  exists b, tr. split; [exact Hb |]. apply Hiff. reflexivity.
Defined.

(** X6 on the notebook's literals. *)
Lemma improved_drop_ratio_witness :
  exists ns tr1 ns' tr2,
    baseline table_CoolProp notebook_parameters [] = (inr ns, tr1) /\
    improved table_CoolProp improved_fraction ns tr1 = (inr ns', tr2) /\
    h2_JperKg ns' = (h2_JperKg ns + h3_JperKg ns) / 2.
Proof.
  destruct (improved_drop_ratio table_CoolProp notebook_parameters
              improved_fraction [])
    as (ns & tr1 & Hb & (ns' & tr2 & Hi & _ & Hmid));
    [simpl; lra | simpl; lra | discriminate |].
  exists ns, tr1, ns', tr2.
  split; [exact Hb | split; [exact Hi |]].
  apply Hmid; reflexivity.
Defined.

(** X7 on the notebook's literals and the fractions 0.05 and 0.5. *)
Lemma inlet_enthalpy_monotone_witness :
  exists ns tr1 n1 tr2 n2 tr3,
    baseline table_CoolProp notebook_parameters [] = (inr ns, tr1) /\
    improved table_CoolProp 0.05 ns tr1 = (inr n1, tr2) /\
    improved table_CoolProp 0.5 ns tr1 = (inr n2, tr3) /\
    h2_JperKg n2 <= h2_JperKg n1 <= h3_JperKg ns.
Proof.
  destruct (inlet_enthalpy_monotone table_CoolProp notebook_parameters
              0.05 0.5 [])
    as (ns & tr1 & Hb & (n1 & tr2 & H1 & (n2 & tr3 & H2 & Hle & _)));
    [simpl; lra | simpl; lra | discriminate | lra |].
  exists ns, tr1, n1, tr2, n2, tr3.
  repeat (split; [assumption |]). exact Hle.
Defined.

(** X8 on the notebook's literals and twice their flows. *)
Lemma combustion_heat_monotone_witness :
  exists ns tr ns' tr',
    baseline table_CoolProp notebook_parameters [] = (inr ns, tr) /\
    baseline table_CoolProp (scale_flows 2 notebook_parameters) []
    = (inr ns', tr') /\
    Q_out ns <= Q_out ns'.
Proof.
  destruct (combustion_heat_monotone table_CoolProp notebook_parameters
              (scale_flows 2 notebook_parameters) [])
    as (ns & tr & Hb & (ns' & tr' & Hb' & _ & Hle & _));
    [simpl; lra | simpl; lra | simpl; lra | simpl; lra | discriminate |].
  exists ns, tr, ns', tr'.
  split; [exact Hb | split; [exact Hb' |]].
  apply Hle. simpl. lra.
Defined.

(** X9 on the notebook's namespace. *)
Lemma mach_number_witness :
  exists t tr,
    thrust table_CoolProp notebook_namespace [] = (inr t, tr) /\
    (h3_gas t <= h2_gas t ->
     exists v m, V t = PyFloat v /\ M t = PyFloat m /\ v = 343 * m).
Proof.
  destruct (mach_number table_CoolProp notebook_namespace [])
    as (t & tr & Ht & Hreal & _); [simpl; lra | discriminate |].
  exists t, tr. split; [exact Ht |]. intros Hle.
  destruct (Hreal Hle) as (v & m & HV & HM & Hv & _).
  exists v, m. repeat (split; [assumption |]). exact Hv.
Defined.

(** X10 on the notebook's literals and the factor 2. *)
Lemma flow_scaling_witness :
  exists b tr b' tr',
    run_baseline table_CoolProp notebook_parameters [] = (inr b, tr) /\
    run_baseline table_CoolProp (scale_flows 2 notebook_parameters) []
    = (inr b', tr') /\
    V (snd b') = V (snd b) /\
    Thrust_N (snd b') = pynum_mul 2 (Thrust_N (snd b)) /\
    work_EPump (fst b') = work_EPump (fst b) / 2.
Proof.
  destruct (flow_scaling table_CoolProp notebook_parameters 2 [])
    as (b & tr & Hb & (b' & tr' & Hb' & _ & _ & _ & HW & _ & HV & HF));
    [lra | simpl; lra | simpl; lra | simpl; lra | discriminate |].
  exists b, tr, b', tr'. repeat (split; [assumption |]). exact HW.
Defined.

(** X11 on the notebook's namespace. *)
Lemma improved_overwrites_witness :
  exists ns1 tr1,
    improved table_CoolProp improved_fraction notebook_namespace []
    = (inr ns1, tr1) /\
    fst (improved table_CoolProp improved_fraction ns1 tr1) = inr ns1.
Proof.
  destruct (improved_returns table_CoolProp improved_fraction
              notebook_namespace [])
    as (ns1 & tr1 & Hi & _); [simpl; lra | discriminate |].
  exists ns1, tr1. split; [exact Hi |].
  exact (proj2 (improved_overwrites table_CoolProp improved_fraction
                  improved_fraction notebook_namespace ns1 [] tr1 Hi)).
Defined.

(** X12 on the notebook's literals. *)
Lemma cell7_again_after_baseline_witness :
  exists ns tr1,
    baseline table_CoolProp notebook_parameters [] = (inr ns, tr1) /\
    fst (cell7 table_CoolProp ns tr1) = inr ns.
Proof.
  destruct (baseline_returns table_CoolProp notebook_parameters [])
    as (ns & tr1 & Hb & _); [simpl; lra | simpl; lra | discriminate |].
  exists ns, tr1. split; [exact Hb |].
  exact (cell7_again_after_baseline table_CoolProp notebook_parameters
           [] ns tr1 Hb).
Defined.

(** X13 on the notebook's literals. *)
Lemma cell7_again_after_improved_witness :
  exists ns tr1 ns' tr2 ns'' tr3,
    baseline table_CoolProp notebook_parameters [] = (inr ns, tr1) /\
    improved table_CoolProp improved_fraction ns tr1 = (inr ns', tr2) /\
    cell7 table_CoolProp ns' tr2 = (inr ns'', tr3) /\
    h3_JperKg ns'' - h2_JperKg ns'' = 20 * (h3_JperKg ns' - h2_JperKg ns').
Proof.
  destruct (cell7_again_after_improved table_CoolProp notebook_parameters
              improved_fraction [])
    as (ns & tr1 & Hb & (ns' & tr2 & Hi & (ns'' & tr3 & Hc & H20 & _)));
    [simpl; lra | simpl; lra | discriminate |].
  exists ns, tr1, ns', tr2, ns'', tr3.
  repeat (split; [assumption |]). exact H20.
Defined.

(** X14 on the notebook's literals. *)
Lemma improved_ignores_oxidizer_witness :
  exists ns tr1 ns' tr2,
    baseline table_CoolProp notebook_parameters [] = (inr ns, tr1) /\
    improved table_CoolProp improved_fraction ns tr1 = (inr ns', tr2) /\
    work_OPump ns' = work_OPump ns.
Proof.
  destruct (improved_ignores_oxidizer table_CoolProp notebook_parameters
              improved_fraction [])
    as (ns & tr1 & Hb & (ns' & tr2 & Hi & _ & _ & _ & _ & _ & HW));
    [simpl; lra | simpl; lra | discriminate |].
  exists ns, tr1, ns', tr2. repeat (split; [assumption |]). exact HW.
Defined.

(** X15 on the notebook's literals against a tank at 101325 Pa and a
    fraction of 0.5. *)
Lemma thrust_ignores_cooling_witness :
  exists b tr b' tr',
    run_baseline table_CoolProp notebook_parameters [] = (inr b, tr) /\
    run_baseline table_CoolProp
      {| mass_flow_fuel := 0.125; mass_flow_ox := 0.125;
         feed_pressure := 1200000; tank_pressure := 101325;
         wall_fraction := 0.5 |} [] = (inr b', tr') /\
    snd b' = snd b.
Proof.
  destruct (thrust_ignores_cooling table_CoolProp notebook_parameters
              {| mass_flow_fuel := 0.125; mass_flow_ox := 0.125;
                 feed_pressure := 1200000; tank_pressure := 101325;
                 wall_fraction := 0.5 |} [])
    as (b & tr & Hb & (b' & tr' & Hb' & E));
    [reflexivity | reflexivity | reflexivity
    | simpl; lra | simpl; lra | simpl; lra | discriminate |].
  exists b, tr, b', tr'. repeat (split; [assumption |]). exact E.
Defined.
